(** * Social media post generator: a shallow embedding of
      [social_post_generator.py] and the properties of its pipeline

    The Python module is a Streamlit script.  Its pipeline is
    [detect_api_service] (credential classification), [format_event_info]
    and [create_prompt] (prompt construction), the three HTTP clients
    [generate_with_openai], [generate_with_gemini], [generate_with_anthropic],
    the offline [generate_mock_posts], and the part of [main] that derives
    the service and reacts to the Generate button.

    Python strings are sequences of Unicode code points, so [len] and
    slicing count code points; they are modelled as [list N].  Dictionaries
    with string keys are [gmap]s.  Code that calls the network or Streamlit
    lives in a state-and-exception monad over an explicit [World]. *)

From Stdlib Require Import ZArith NArith Ascii String DecimalString.
From stdpp Require Import base option list gmap.

Set Warnings "-register-all".

Local Open Scope N_scope.
Local Open Scope list_scope.

(** ** Python strings *)

Abbreviation str := (list N).

(** An ASCII literal of the source, as code points. *)
Definition lit (s : string) : str :=
  map N_of_ascii (list_ascii_of_string s).

(** ["\n"] *)
Definition NL : str := [10].

(** Truthiness of a string: [if s:] holds for every non-empty string. *)
Definition truthy (s : str) : bool :=
  match s with
  | [] => false
  | _ :: _ => true
  end.

(** [a == b] on strings. *)
Definition str_eq (a b : str) : bool := bool_decide (a = b).
Infix "==" := str_eq (at level 70, no associativity).

(** [s.startswith(p)] *)
Definition startswith (s p : str) : bool := bool_decide (p `prefix_of` s).

(** [str.lower] on ASCII strings: [A]..[Z] are mapped to [a]..[z] and every
    other code point is left as it is.  Python's [str.lower] also maps the
    cased code points outside ASCII (U+00C0 to U+00E0, for one), which this
    definition does not follow: it is [str.lower] on the strings without
    such a code point, and the six tones the selectbox of [main] offers are
    ASCII words. *)
Definition lower_char (c : N) : N :=
  if (65 <=? c) && (c <=? 90) then c + 32 else c.

Definition lower (s : str) : str := map lower_char s.

(** [str.isspace] of one code point: the white space [str.strip()] removes. *)
Definition is_space (c : N) : bool :=
  ((9 <=? c) && (c <=? 13)) || ((28 <=? c) && (c <=? 32))
  || (c =? 133) || (c =? 160) || (c =? 5760)
  || ((8192 <=? c) && (c <=? 8202))
  || (c =? 8232) || (c =? 8233) || (c =? 8239) || (c =? 8287) || (c =? 12288).

Fixpoint lstrip (s : str) : str :=
  match s with
  | c :: s' => if is_space c then lstrip s' else s
  | [] => []
  end.

(** [s.strip()] *)
Definition strip (s : str) : str := rev (lstrip (rev (lstrip s))).

(** [str(n)] for an integer. *)
Definition str_of_int (n : Z) : str :=
  lit (NilZero.string_of_int (Z.to_int n)).

(** ** Exceptions

    Only subclasses of [Exception] are modelled: these are what a failed
    request, a failed [response.json()] and a failed subscript raise. *)

Inductive exn_class :=
  | KeyError | IndexError | TypeError | AttributeError
  | ValueError | RequestException.

#[global] Instance exn_class_eq_dec : EqDecision exn_class.
Proof. solve_decision. Defined.

(** An exception: its class and [str(e)]. *)
Record exn := Exn { exn_class_of : exn_class; exn_str : str }.

Inductive Result (A : Type) :=
  | Ok (a : A)
  | Raise (e : exn).
Arguments Ok {A} a.
Arguments Raise {A} e.

#[global] Instance Result_ret : MRet Result := fun A a => Ok a.
#[global] Instance Result_bind : MBind Result := fun A B f r =>
  match r with
  | Ok a => f a
  | Raise e => Raise e
  end.

(** ** JSON values, as [response.json()] returns them and as [json=payload]
    sends them *)

Inductive json :=
  | JNull
  | JBool (b : bool)
  | JInt (n : Z)
  | JFloat (repr : str)
  | JStr (s : str)
  | JArr (items : list json)
  | JObj (fields : list (str * json)).

(** Lookup of a key in a [dict] given by its fields.  A [dict] holds a key
    once, so a list of fields that stands for the value of
    [response.json()] names no key twice, and the lookup finds the one
    binding of the key. *)
Fixpoint dict_get (fields : list (str * json)) (k : str) : option json :=
  match fields with
  | [] => None
  | (k', v) :: rest => if k' == k then Some v else dict_get rest k
  end.

(** [repr] of a key of the source (letters only): the key in single quotes.
    [str(KeyError(k))] is [repr(k)]. *)
Definition repr_key (k : str) : str := lit "'" ++ k ++ lit "'".

Definition not_subscriptable (ty : string) : exn :=
  Exn TypeError (lit "'" ++ lit ty ++ lit "' object is not subscriptable").

(** [v[k]] for a string [k] *)
Definition getitem_str (k : str) (v : json) : Result json :=
  match v with
  | JObj fields =>
      match dict_get fields k with
      | Some x => Ok x
      | None => Raise (Exn KeyError (repr_key k))
      end
  | JArr _ => Raise (Exn TypeError (lit "list indices must be integers or slices, not str"))
  | JStr _ => Raise (Exn TypeError (lit "string indices must be integers, not 'str'"))
  | JNull => Raise (not_subscriptable "NoneType")
  | JBool _ => Raise (not_subscriptable "bool")
  | JInt _ => Raise (not_subscriptable "int")
  | JFloat _ => Raise (not_subscriptable "float")
  end.

(** [v[0]]: the first item of a list, the first character of a string; a
    [dict] parsed from JSON has string keys only, so [0] is never a key. *)
Definition getitem_0 (v : json) : Result json :=
  match v with
  | JArr (x :: _) => Ok x
  | JArr [] => Raise (Exn IndexError (lit "list index out of range"))
  | JStr (c :: _) => Ok (JStr [c])
  | JStr [] => Raise (Exn IndexError (lit "string index out of range"))
  | JObj _ => Raise (Exn KeyError (lit "0"))
  | JNull => Raise (not_subscriptable "NoneType")
  | JBool _ => Raise (not_subscriptable "bool")
  | JInt _ => Raise (not_subscriptable "int")
  | JFloat _ => Raise (not_subscriptable "float")
  end.

Definition no_attribute (ty : string) : exn :=
  Exn AttributeError (lit "'" ++ lit ty ++ lit "' object has no attribute 'strip'").

(** [v.strip()] *)
Definition json_strip (v : json) : Result str :=
  match v with
  | JStr s => Ok (strip s)
  | JNull => Raise (no_attribute "NoneType")
  | JBool _ => Raise (no_attribute "bool")
  | JInt _ => Raise (no_attribute "int")
  | JFloat _ => Raise (no_attribute "float")
  | JArr _ => Raise (no_attribute "list")
  | JObj _ => Raise (no_attribute "dict")
  end.

(** ** The world: network, Streamlit output, session state *)

Inductive http_method := GET | POST.

Record request := Request {
  req_method : http_method;
  req_url : str;
  req_headers : list (str * str);
  req_json : option json
}.

(** What the program reads of a response: [status_code], [text] and the
    result of [json()], which raises on a body that is not JSON. *)
Record response := Response {
  status_code : Z;
  text : str;
  json_of : Result json
}.

(** A request either raises (no connection, time-out, ...) or is answered. *)
Inductive outcome :=
  | Fails (e : exn)
  | Replies (r : response).

Inductive ui_event :=
  | Spinner (msg : str)
  | StError (msg : str)
  | StInfo (msg : str)
  | StToast (msg : str)
  | SidebarSuccess (msg : str)
  | SidebarInfo (msg : str).

(** [network n req] is what the [n]-th request of the run meets when it is
    [req]; [sent] logs the requests made, [ui] the Streamlit calls, and
    [session_posts] is [st.session_state.posts] ([None] while unset). *)
Record World := mkWorld {
  network : nat -> request -> outcome;
  sent : list request;
  ui : list ui_event;
  session_posts : option (gmap str str)
}.

Definition M (A : Type) : Type := World -> Result A * World.

#[global] Instance M_ret : MRet M := fun A a w => (Ok a, w).
#[global] Instance M_bind : MBind M := fun A B f m w =>
  match m w with
  | (Ok a, w') => f a w'
  | (Raise e, w') => (Raise e, w')
  end.

Definition lift {A} (r : Result A) : M A := fun w => (r, w).

(** [try: body / except <classes>: handler]: state changes made before the
    exception stay. *)
Definition try_except {A} (catches : exn -> bool) (body : M A) (handler : exn -> M A) : M A :=
  fun w =>
    match body w with
    | (Ok a, w') => (Ok a, w')
    | (Raise e, w') => if catches e then handler e w' else (Raise e, w')
    end.

(** [except Exception] and the bare [except:] catch every modelled exception. *)
Definition any_exception (e : exn) : bool := true.

(** [except (KeyError, IndexError)] *)
Definition key_or_index_error (e : exn) : bool :=
  match exn_class_of e with
  | KeyError | IndexError => true
  | _ => false
  end.

Definition emit (ev : ui_event) : M unit := fun w =>
  (Ok tt, mkWorld (network w) (sent w) (ui w ++ [ev]) (session_posts w)).

Definition http (req : request) : M response := fun w =>
  let w' := mkWorld (network w) (sent w ++ [req]) (ui w) (session_posts w) in
  match network w (length (sent w)) req with
  | Fails e => (Raise e, w')
  | Replies r => (Ok r, w')
  end.

Definition requests_get (url : str) (headers : list (str * str)) : M response :=
  http (Request GET url headers None).

Definition requests_post (url : str) (headers : list (str * str)) (payload : json) : M response :=
  http (Request POST url headers (Some payload)).

(** ** [detect_api_service] *)

(** The character class [[0-9A-Za-z_-]]. *)
Definition key_char (c : N) : bool :=
  ((48 <=? c) && (c <=? 57)) || ((65 <=? c) && (c <=? 90))
  || ((97 <=? c) && (c <=? 122)) || (c =? 95) || (c =? 45).

(** [re.match(r'^AIza[0-9A-Za-z_-]{35}$', s)]: without [re.MULTILINE], [$]
    matches at the end and also before a newline that ends the string. *)
Definition re_match_gemini (s : str) : bool :=
  startswith s (lit "AIza")
  && forallb key_char (take 35 (drop 4 s))
  && (length (take 35 (drop 4 s)) =? 35)%nat
  && ((drop 39 s == []) || (drop 39 s == NL)).

Definition detect_api_service (api_key : str) : M str :=
  if negb (truthy api_key) then mret (lit "No API key provided")
  else if startswith api_key (lit "sk-") then mret (lit "OpenAI")
  else if re_match_gemini api_key then mret (lit "Google/Gemini")
  else if startswith api_key (lit "sk-ant-") then mret (lit "Anthropic/Claude")
  else
    returned ← try_except any_exception
      (let headers :=
         [ (lit "Authorization", lit "Bearer " ++ api_key);
           (lit "Content-Type", lit "application/json") ] in
       response ← requests_get (lit "https://api.openai.com/v1/models") headers;
       if (status_code response =? 200)%Z then mret (Some (lit "OpenAI"))
       else mret None)
      (fun _ => mret None);
    match returned with
    | Some service => mret service
    | None => mret (lit "Unknown API service")
    end.

(** ** [format_event_info] and [create_prompt] *)

Definition format_event_info (name desc date location : str) : str :=
  let event_info := lit "Event Name: " ++ name ++ NL in
  let event_info := event_info ++ (lit "Description: " ++ desc ++ NL) in
  let event_info :=
    if truthy date then event_info ++ (lit "Date: " ++ date ++ NL) else event_info in
  let event_info :=
    if truthy location then event_info ++ (lit "Location: " ++ location ++ NL) else event_info in
  event_info.

Definition create_prompt (platform event_info tone : str) : str :=
  let char_limit := 1000%Z in
  let char_limit := if platform == lit "Twitter" then 280%Z else char_limit in
  let prompt :=
    lit "Create a " ++ lower tone ++ lit " " ++ platform
      ++ lit " post about the following event:" ++ NL ++ NL in
  let prompt := prompt ++ (event_info ++ NL) in
  let prompt :=
    if platform == lit "LinkedIn" then
      prompt ++ lit "The post should be professional, informative, and include relevant hashtags. It should be suitable for a business audience."
    else if platform == lit "Twitter" then
      prompt ++ (lit "The post should be concise (under " ++ str_of_int char_limit
                   ++ lit " characters), engaging, and include relevant hashtags.")
    else if platform == lit "WhatsApp" then
      prompt ++ lit "The post should be conversational, informative, and use emojis where appropriate. It should feel personal and friendly."
    else prompt in
  let prompt := prompt ++ (NL ++ lit "The tone should be " ++ lower tone ++ lit ".") in
  let prompt :=
    if tone == lit "Sarcastic" then
      prompt ++ lit " Use witty sarcasm and humor while still conveying the important information."
    else if tone == lit "Professional" then
      prompt ++ lit " Use formal language and focus on the business value of the event."
    else if tone == lit "Enthusiastic" then
      prompt ++ lit " Show high energy and excitement about the event."
    else if tone == lit "Humorous" then
      prompt ++ lit " Include appropriate jokes or wordplay while still being informative."
    else prompt in
  prompt.



(** ** The provider clients *)

(** [for x in items: body], with the variables the body updates as [s]. *)
Fixpoint for_each {A S : Type} (items : list A) (body : A -> S -> M S) (s : S) : M S :=
  match items with
  | [] => mret s
  | x :: rest => s' ← body x s; for_each rest body s'
  end.

Definition platforms : list str := [lit "LinkedIn"; lit "Twitter"; lit "WhatsApp"].

(** [result["choices"][0]["message"]["content"].strip()] *)
Definition openai_content (result : json) : Result str :=
  choices ← getitem_str (lit "choices") result;
  choice ← getitem_0 choices;
  message ← getitem_str (lit "message") choice;
  content ← getitem_str (lit "content") message;
  json_strip content.

Definition openai_payload (prompt : str) : json :=
  JObj [ (lit "model", JStr (lit "gpt-3.5-turbo"));
         (lit "messages",
            JArr [JObj [(lit "role", JStr (lit "user")); (lit "content", JStr prompt)]]);
         (lit "max_tokens", JInt 500);
         (lit "temperature", JFloat (lit "0.7")) ].

Definition openai_headers (api_key : str) : list (str * str) :=
  [ (lit "Authorization", lit "Bearer " ++ api_key);
    (lit "Content-Type", lit "application/json") ].

(** One turn of the loop of [generate_with_openai]. *)
Definition openai_platform (api_key event_info tone : str)
    (platform : str) (results : gmap str str) : M (gmap str str) :=
  let prompt := create_prompt platform event_info tone in
  let payload := openai_payload prompt in
  try_except any_exception
    (response ← requests_post (lit "https://api.openai.com/v1/chat/completions")
                  (openai_headers api_key) payload;
     if (status_code response =? 200)%Z then
       result ← lift (json_of response);
       content ← lift (openai_content result);
       mret (<[platform := content]> results)
     else
       mret (<[platform := lit "Error with OpenAI API: " ++ text response]> results))
    (fun e => mret (<[platform := lit "Error: " ++ exn_str e]> results)).

Definition generate_with_openai (api_key name desc date location tone : str)
    : M (gmap str str) :=
  let event_info := format_event_info name desc date location in
  let results : gmap str str := ∅ in
  emit (Spinner (lit "Generating posts with OpenAI..."));;
  for_each platforms (openai_platform api_key event_info tone) results.

(** [result["candidates"][0]["content"]["parts"][0]["text"].strip()] *)
Definition gemini_content (result : json) : Result str :=
  candidates ← getitem_str (lit "candidates") result;
  candidate ← getitem_0 candidates;
  content ← getitem_str (lit "content") candidate;
  parts ← getitem_str (lit "parts") content;
  part ← getitem_0 parts;
  text ← getitem_str (lit "text") part;
  json_strip text.

Definition gemini_payload (prompt : str) : json :=
  JObj [ (lit "contents", JArr [JObj [(lit "parts", JArr [JObj [(lit "text", JStr prompt)]])]]);
         (lit "generationConfig",
            JObj [ (lit "temperature", JFloat (lit "0.7"));
                   (lit "maxOutputTokens", JInt 500);
                   (lit "topP", JFloat (lit "0.8"));
                   (lit "topK", JInt 40) ]) ].

Definition gemini_url (api_key : str) : str :=
  lit "https://generativelanguage.googleapis.com/v1/models/gemini-pro:generateContent?key="
    ++ api_key.

(** One turn of the loop of [generate_with_gemini]. *)
Definition gemini_platform (api_key event_info tone : str)
    (platform : str) (results : gmap str str) : M (gmap str str) :=
  let prompt := create_prompt platform event_info tone in
  let url := gemini_url api_key in
  let payload := gemini_payload prompt in
  try_except any_exception
    (response ← requests_post url [(lit "Content-Type", lit "application/json")] payload;
     if (status_code response =? 200)%Z then
       result ← lift (json_of response);
       try_except key_or_index_error
         (content ← lift (gemini_content result);
          mret (<[platform := content]> results))
         (fun e =>
            mret (<[platform := lit "Error parsing Gemini API response: " ++ exn_str e]> results))
     else
       let error_msg := if truthy (text response) then text response else lit "Unknown error" in
       let results := <[platform := lit "Error with Gemini API: " ++ error_msg]> results in
       emit (StError (lit "Gemini API Error (" ++ str_of_int (status_code response)
                        ++ lit "): " ++ error_msg));;
       mret results)
    (fun e => mret (<[platform := lit "Error: " ++ exn_str e]> results)).

Definition generate_with_gemini (api_key name desc date location tone : str)
    : M (gmap str str) :=
  let event_info := format_event_info name desc date location in
  let results : gmap str str := ∅ in
  emit (Spinner (lit "Generating posts with Google/Gemini..."));;
  for_each platforms (gemini_platform api_key event_info tone) results.

(** [result["content"][0]["text"].strip()] *)
Definition anthropic_content (result : json) : Result str :=
  content ← getitem_str (lit "content") result;
  block ← getitem_0 content;
  text ← getitem_str (lit "text") block;
  json_strip text.

Definition anthropic_payload (prompt : str) : json :=
  JObj [ (lit "model", JStr (lit "claude-3-haiku-20240307"));
         (lit "max_tokens", JInt 500);
         (lit "temperature", JFloat (lit "0.7"));
         (lit "messages",
            JArr [JObj [(lit "role", JStr (lit "user")); (lit "content", JStr prompt)]]) ].

Definition anthropic_headers (api_key : str) : list (str * str) :=
  [ (lit "x-api-key", api_key);
    (lit "Content-Type", lit "application/json");
    (lit "anthropic-version", lit "2023-06-01") ].

(** One turn of the loop of [generate_with_anthropic]. *)
Definition anthropic_platform (api_key event_info tone : str)
    (platform : str) (results : gmap str str) : M (gmap str str) :=
  let prompt := create_prompt platform event_info tone in
  let payload := anthropic_payload prompt in
  try_except any_exception
    (response ← requests_post (lit "https://api.anthropic.com/v1/messages")
                  (anthropic_headers api_key) payload;
     if (status_code response =? 200)%Z then
       result ← lift (json_of response);
       content ← lift (anthropic_content result);
       mret (<[platform := content]> results)
     else
       mret (<[platform := lit "Error with Anthropic API: " ++ text response]> results))
    (fun e => mret (<[platform := lit "Error: " ++ exn_str e]> results)).

Definition generate_with_anthropic (api_key name desc date location tone : str)
    : M (gmap str str) :=
  let event_info := format_event_info name desc date location in
  let results : gmap str str := ∅ in
  emit (Spinner (lit "Generating posts with Anthropic/Claude..."));;
  for_each platforms (anthropic_platform api_key event_info tone) results.

(** ** [generate_mock_posts] *)

(** The emoji of the templates, by code point. *)
Definition e_calendar : str := [128197].
Definition e_pin : str := [128205].
Definition e_wave : str := [128075].
Definition e_smile : str := [128522].
Definition e_eyeroll : str := [128580].
Definition e_loudspeaker : str := [128226].
Definition e_joy : str := [128514].
Definition e_party : str := [127881].
Definition e_fire : str := [128293].

(** The three local variables [linkedin_post], [twitter_post] and
    [whatsapp_post]. *)
Record posts := Posts {
  linkedin_post : str;
  twitter_post : str;
  whatsapp_post : str
}.

(** The first part of the body: the three posts before the tone is looked at. *)
Definition baseline_posts (name desc date location : str) : posts :=
  let linkedin_post := lit "I'm excited to announce " ++ name ++ lit "!" ++ NL ++ NL in
  let linkedin_post := linkedin_post ++ (desc ++ NL ++ NL) in
  let linkedin_post :=
    if truthy date then linkedin_post ++ (e_calendar ++ lit " When: " ++ date ++ NL)
    else linkedin_post in
  let linkedin_post :=
    if truthy location then linkedin_post ++ (e_pin ++ lit " Where: " ++ location ++ NL)
    else linkedin_post in
  let linkedin_post :=
    linkedin_post ++ (NL ++ lit "Looking forward to connecting with industry professionals at this event. #ProfessionalDevelopment #Networking") in
  let twitter_post := lit "Join us for " ++ name ++ lit "! " in
  let twitter_post :=
    twitter_post ++ (if (100 <? length desc)%nat then take 80 desc ++ lit "..." else desc) in
  let twitter_post :=
    twitter_post ++ (if truthy date && truthy location
                     then lit " " ++ date ++ lit " at " ++ location else []) in
  let twitter_post := twitter_post ++ lit " #excited #event" in
  let whatsapp_post :=
    lit "Hey everyone! " ++ e_wave ++ NL ++ NL ++ lit "Just wanted to let you know about "
      ++ name ++ lit "." ++ NL ++ NL in
  let whatsapp_post := whatsapp_post ++ (desc ++ NL ++ NL) in
  let whatsapp_post :=
    if truthy date then whatsapp_post ++ (e_calendar ++ lit " Date: " ++ date ++ NL)
    else whatsapp_post in
  let whatsapp_post :=
    if truthy location then whatsapp_post ++ (e_pin ++ lit " Location: " ++ location ++ NL)
    else whatsapp_post in
  let whatsapp_post :=
    whatsapp_post ++ (NL ++ lit "Hope to see you there! Feel free to share with others who might be interested. " ++ e_smile) in
  Posts linkedin_post twitter_post whatsapp_post.

(** The second part of the body, [if tone == "Sarcastic": ... elif tone ==
    "Enthusiastic": ...], run on the current values of the three variables. *)
Definition apply_tone (tone name desc date location : str) (current : posts) : posts :=
  let linkedin_post := linkedin_post current in
  let twitter_post := twitter_post current in
  let whatsapp_post := whatsapp_post current in
  if tone == lit "Sarcastic" then
    let linkedin_post :=
      lit "Oh great, another event to add to your calendar: " ++ name ++ lit ". "
        ++ e_eyeroll ++ NL ++ NL in
    let linkedin_post := linkedin_post ++ (desc ++ NL ++ NL) in
    let linkedin_post :=
      if truthy date && truthy location then
        linkedin_post ++ (lit "If you really have nothing better to do on " ++ date
                            ++ lit " at " ++ location ++ lit ", I guess you could show up."
                            ++ NL ++ NL)
      else linkedin_post in
    let linkedin_post :=
      linkedin_post ++ lit "Can't wait to pretend to be interested in small talk. #NetworkingJoy #ProfessionalSmiling" in
    let twitter_post :=
      lit "Wow, " ++ name ++ lit "! Because what we all needed was ANOTHER event to attend. "
        ++ e_eyeroll ++ lit " " in
    let twitter_post :=
      twitter_post ++ (if truthy date && truthy location
                       then date ++ lit " at " ++ location else []) in
    let twitter_post := twitter_post ++ lit " #blessed #sarcasm" in
    let whatsapp_post :=
      lit "Attention everyone! " ++ e_loudspeaker ++ NL ++ NL
        ++ lit "Apparently we're supposed to be excited about " ++ name ++ lit "." ++ NL ++ NL in
    let whatsapp_post := whatsapp_post ++ (desc ++ NL ++ NL) in
    let whatsapp_post :=
      if truthy date && truthy location then
        whatsapp_post ++ (lit "Mark your calendars (or don't) for " ++ date ++ lit " at "
                            ++ location ++ lit "." ++ NL ++ NL)
      else whatsapp_post in
    let whatsapp_post :=
      whatsapp_post ++ (lit "Feel free to come up with creative excuses not to attend. " ++ e_joy) in
    Posts linkedin_post twitter_post whatsapp_post
  else if tone == lit "Enthusiastic" then
    let linkedin_post :=
      e_party ++ lit " INCREDIBLY EXCITED to announce " ++ name ++ lit "!! " ++ e_party
        ++ NL ++ NL in
    let linkedin_post := linkedin_post ++ (desc ++ NL ++ NL) in
    let linkedin_post :=
      if truthy date && truthy location then
        linkedin_post ++ (e_calendar ++ lit " MARK YOUR CALENDARS: " ++ date ++ NL
                            ++ e_pin ++ lit " BE THERE: " ++ location ++ NL ++ NL)
      else linkedin_post in
    let linkedin_post :=
      linkedin_post ++ lit "This is going to be ABSOLUTELY AMAZING!! Can't WAIT to see everyone there!!! #Excited #BestEventEver" in
    let twitter_post :=
      lit "OMG! You DO NOT want to miss " ++ name ++ lit "!! It's going to be INCREDIBLE! " in
    let twitter_post :=
      twitter_post ++ (if truthy date && truthy location
                       then date ++ lit " at " ++ location else []) in
    let twitter_post := twitter_post ++ lit " #CantWait #SoExcited" in
    let whatsapp_post :=
      lit "HEY EVERYONE!!! " ++ e_fire ++ e_fire ++ e_fire ++ NL ++ NL
        ++ lit "DROP EVERYTHING YOU'RE DOING! " ++ name
        ++ lit " is happening and it's going to be EPIC!!!" ++ NL ++ NL in
    let whatsapp_post := whatsapp_post ++ (desc ++ NL ++ NL) in
    let whatsapp_post :=
      if truthy date && truthy location then
        whatsapp_post ++ (e_calendar ++ lit " When: " ++ date ++ lit " (SET THOSE ALARMS!)" ++ NL
                            ++ e_pin ++ lit " Where: " ++ location ++ lit " (GET THERE EARLY!)"
                            ++ NL ++ NL)
      else whatsapp_post in
    let whatsapp_post :=
      whatsapp_post ++ (lit "I AM SOOOO EXCITED!!! " ++ e_party ++ e_party ++ e_party
                          ++ lit " PLEASE COME!!! SHARE WITH EVERYONE!!!") in
    Posts linkedin_post twitter_post whatsapp_post
  else Posts linkedin_post twitter_post whatsapp_post.

Definition generate_mock_posts (name desc date location tone : str) : M (gmap str str) :=
  let event_info := format_event_info name desc date location in
  let results : gmap str str := ∅ in
  emit (Spinner (lit "Generating sample posts..."));;
  let final := apply_tone tone name desc date location (baseline_posts name desc date location) in
  let results := <[lit "LinkedIn" := linkedin_post final]> results in
  let results := <[lit "Twitter" := twitter_post final]> results in
  let results := <[lit "WhatsApp" := whatsapp_post final]> results in
  mret results.

(** ** [main]: the service, the session state and the Generate button

    The widgets are the inputs of one run of the script.  Calls that only
    draw (title, headers, the example expander, the tabs that [main] fills
    after the button is handled) are left out: they read
    [st.session_state.posts] and write nothing. *)

Record form := Form {
  api_key : str;
  selected_service : str;
  event_name : str;
  event_date : str;
  event_location : str;
  tone : str;
  event_desc : str;
  generate_button : bool
}.

(** The sidebar: the detected service and the manual override. *)
Definition select_service (f : form) : M str :=
  service ←
    (if truthy (api_key f) then
       service ← detect_api_service (api_key f);
       emit (SidebarSuccess (lit "Detected API Service: " ++ service));;
       mret service
     else
       emit (SidebarInfo (lit "Enter an API key to detect the service"));;
       mret (lit "Not Detected"));
  if negb (selected_service f == lit "Auto-detect") then
    if selected_service f == lit "Use Mock Generator (No API)" then mret (lit "Mock")
    else
      let service := selected_service f in
      emit (SidebarInfo (lit "Manually selected: " ++ service));;
      mret service
  else mret service.

Definition set_posts (p : gmap str str) : M unit := fun w =>
  (Ok tt, mkWorld (network w) (sent w) (ui w) (Some p)).

(** [if 'posts' not in st.session_state: st.session_state.posts = {...}] *)
Definition init_posts : M unit := fun w =>
  match session_posts w with
  | Some _ => (Ok tt, w)
  | None =>
      set_posts (<[lit "WhatsApp" := []]> (<[lit "Twitter" := []]> (<[lit "LinkedIn" := []]> ∅))) w
  end.

(** The dispatch on [service] of the Generate branch. *)
Definition generate (service : str) (f : form) : M (gmap str str) :=
  if service == lit "OpenAI" then
    generate_with_openai (api_key f) (event_name f) (event_desc f) (event_date f)
      (event_location f) (tone f)
  else if service == lit "Google/Gemini" then
    emit (StInfo (lit "Using Gemini API. If you encounter errors, verify your API key and check that you have access to the Gemini Pro model."));;
    generate_with_gemini (api_key f) (event_name f) (event_desc f) (event_date f)
      (event_location f) (tone f)
  else if service == lit "Anthropic/Claude" then
    generate_with_anthropic (api_key f) (event_name f) (event_desc f) (event_date f)
      (event_location f) (tone f)
  else
    generate_mock_posts (event_name f) (event_desc f) (event_date f) (event_location f) (tone f).

(** [if generate_button: ...] *)
Definition on_generate (service : str) (f : form) : M unit :=
  if generate_button f then
    if negb (truthy (event_name f)) || negb (truthy (event_desc f)) then
      emit (StError (lit "Event name and description are required!"))
    else
      new_posts ← generate service f;
      set_posts new_posts;;
      emit (StToast (lit "Posts generated successfully!"))
  else mret tt.

Definition main (f : form) : M unit :=
  service ← select_service f;
  init_posts;;
  on_generate service f.

(** * Vocabulary of the properties *)

(** ** Running a computation *)

Definition value_of {A} (run : Result A * World) : Result A := fst run.
Definition world_of {A} (run : Result A * World) : World := snd run.

(** ** [detect_api_service] *)

(** The request of the fallback probe. *)
Definition probe_request (api_key : str) : request :=
  Request GET (lit "https://api.openai.com/v1/models")
    [ (lit "Authorization", lit "Bearer " ++ api_key);
      (lit "Content-Type", lit "application/json") ]
    None.

(** No pattern rule applies to the key, so the probe is made. *)
Definition reaches_probe (api_key : str) : bool :=
  truthy api_key && negb (startswith api_key (lit "sk-"))
  && negb (re_match_gemini api_key).

(** The probe failed: the request raised, or the status is not 200. *)
Definition probe_failed (o : outcome) : Prop :=
  match o with
  | Fails _ => True
  | Replies r => status_code r ≠ 200%Z
  end.

(** ** [create_prompt] *)

(** The tones of the selectbox of [main]. *)
Inductive Tone := Professional | Casual | Enthusiastic | Sarcastic | Formal | Humorous.

Definition tone_name (t : Tone) : str :=
  match t with
  | Professional => lit "Professional"
  | Casual => lit "Casual"
  | Enthusiastic => lit "Enthusiastic"
  | Sarcastic => lit "Sarcastic"
  | Formal => lit "Formal"
  | Humorous => lit "Humorous"
  end.

(** The tones with an elaboration clause. *)
Definition elaborated_tones : list str :=
  [lit "Sarcastic"; lit "Professional"; lit "Enthusiastic"; lit "Humorous"].

(** The clause that follows the tone restatement, empty when there is none. *)
Definition elaboration_clause (tone : str) : str :=
  if tone == lit "Sarcastic" then
    lit " Use witty sarcasm and humor while still conveying the important information."
  else if tone == lit "Professional" then
    lit " Use formal language and focus on the business value of the event."
  else if tone == lit "Enthusiastic" then
    lit " Show high energy and excitement about the event."
  else if tone == lit "Humorous" then
    lit " Include appropriate jokes or wordplay while still being informative."
  else [].

(** The style clause of a platform, empty for a platform that has none. *)
Definition platform_clause (platform : str) : str :=
  if platform == lit "LinkedIn" then
    lit "The post should be professional, informative, and include relevant hashtags. It should be suitable for a business audience."
  else if platform == lit "Twitter" then
    lit "The post should be concise (under 280 characters), engaging, and include relevant hashtags."
  else if platform == lit "WhatsApp" then
    lit "The post should be conversational, informative, and use emojis where appropriate. It should feel personal and friendly."
  else [].

(** The prompt up to and with the tone restatement. *)
Definition prompt_through_tone (platform event_info tone : str) : str :=
  lit "Create a " ++ lower tone ++ lit " " ++ platform
    ++ lit " post about the following event:" ++ NL ++ NL
    ++ event_info ++ NL
    ++ platform_clause platform
    ++ NL ++ lit "The tone should be " ++ lower tone ++ lit ".".

(** ** [generate_mock_posts] *)

(** The tones whose branch of [generate_mock_posts] rewrites the posts. *)
Definition swaps_templates (tone : str) : bool :=
  (tone == lit "Sarcastic") || (tone == lit "Enthusiastic").




(** The mapping [generate_mock_posts] builds from the three variables. *)
Definition posts_dict (p : posts) : gmap str str :=
  <[lit "WhatsApp" := whatsapp_post p]>
    (<[lit "Twitter" := twitter_post p]> (<[lit "LinkedIn" := linkedin_post p]> ∅)).

(** The entry of [platform] in the mapping a run of [generate_mock_posts]
    returns. *)
Definition mock_post (platform name desc date location tone : str) (w : World)
    : option str :=
  match value_of (generate_mock_posts name desc date location tone w) with
  | Ok results => results !! platform
  | Raise _ => None
  end.

(** Date and location as the baseline Twitter post shows them. *)
Definition twitter_when (date location : str) : str :=
  if truthy date && truthy location then lit " " ++ date ++ lit " at " ++ location else [].

(** Exactly one of the two optional fields is filled in. *)
Definition exactly_one_given (date location : str) : Prop :=
  (date ≠ [] ∧ location = []) ∨ (date = [] ∧ location ≠ []).

(** ** Worlds and forms for the examples *)

(** A machine with no connection: every request raises. *)
Definition offline : World :=
  mkWorld (fun _ _ => Fails (Exn RequestException (lit "connection refused"))) [] [] None.

(** ** [main] *)

Definition required_fields_error : ui_event :=
  StError (lit "Event name and description are required!").

(** The world after one more Streamlit call. *)
Definition shown (ev : ui_event) (w : World) : World :=
  mkWorld (network w) (sent w) (ui w ++ [ev]) (session_posts w).

(** A form with the Generate button pressed and no description. *)
Definition form_without_description : form :=
  Form (lit "sk-test") (lit "Auto-detect") (lit "Tech Conf") [] [] (lit "Casual") [] true.

(** ** The provider clients *)

Inductive provider := OpenAI | Gemini | Anthropic.

(** The client [main] calls for a service, [None] for the mock generator. *)
Definition provider_of (service : str) : option provider :=
  if service == lit "OpenAI" then Some OpenAI
  else if service == lit "Google/Gemini" then Some Gemini
  else if service == lit "Anthropic/Claude" then Some Anthropic
  else None.

Definition client (p : provider) : str → str → str → str → str → str → M (gmap str str) :=
  match p with
  | OpenAI => generate_with_openai
  | Gemini => generate_with_gemini
  | Anthropic => generate_with_anthropic
  end.

(** Where a client reads the generated text in the body of a reply. *)
Definition content_of (p : provider) : json → Result str :=
  match p with
  | OpenAI => openai_content
  | Gemini => gemini_content
  | Anthropic => anthropic_content
  end.

(** The request a client sends for a platform. *)
Definition request_of (p : provider) (api_key event_info tone platform : str) : request :=
  let prompt := create_prompt platform event_info tone in
  match p with
  | OpenAI =>
      Request POST (lit "https://api.openai.com/v1/chat/completions")
        (openai_headers api_key) (Some (openai_payload prompt))
  | Gemini =>
      Request POST (gemini_url api_key) [(lit "Content-Type", lit "application/json")]
        (Some (gemini_payload prompt))
  | Anthropic =>
      Request POST (lit "https://api.anthropic.com/v1/messages")
        (anthropic_headers api_key) (Some (anthropic_payload prompt))
  end.

(** The string the generic handler [except Exception as e] stores. *)
Definition generic_error (e : exn) : str := lit "Error: " ++ exn_str e.

(** What a client stores for a platform whose request met [o]. *)
Definition entry_of (p : provider) (o : outcome) : str :=
  match o with
  | Fails e => generic_error e
  | Replies r =>
      if (status_code r =? 200)%Z then
        match json_of r with
        | Raise e => generic_error e
        | Ok result =>
            match content_of p result with
            | Ok content => content
            | Raise e =>
                match p with
                | Gemini =>
                    if key_or_index_error e
                    then lit "Error parsing Gemini API response: " ++ exn_str e
                    else generic_error e
                | _ => generic_error e
                end
            end
        end
      else
        match p with
        | OpenAI => lit "Error with OpenAI API: " ++ text r
        | Gemini =>
            lit "Error with Gemini API: "
              ++ (if truthy (text r) then text r else lit "Unknown error")
        | Anthropic => lit "Error with Anthropic API: " ++ text r
        end
  end.

(** What a client shows for a platform whose request met [o]: only the
    Gemini client reports a status other than 200 with [st.error]. *)
Definition shows_of (p : provider) (o : outcome) : list ui_event :=
  match p, o with
  | Gemini, Replies r =>
      if (status_code r =? 200)%Z then []
      else [StError (lit "Gemini API Error (" ++ str_of_int (status_code r) ++ lit "): "
                       ++ (if truthy (text r) then text r else lit "Unknown error"))]
  | _, _ => []
  end.

(** One turn of the loop of a client. *)
Definition turn_of (p : provider) : str → str → str → str → gmap str str → M (gmap str str) :=
  match p with
  | OpenAI => openai_platform
  | Gemini => gemini_platform
  | Anthropic => anthropic_platform
  end.


(** The set of keys of a complete result. *)
Definition platform_keys : gset str := list_to_set platforms.

(** A string that reports a parsing error, as the Gemini client words it:
    [Error parsing <provider> API response: ...]. *)
Definition parsing_error_string (s : str) : Prop := lit "Error parsing " `prefix_of` s.

(** What a client stores when the body of a reply with status 200 lacks a
    key or an index: the Gemini client has a handler of its own for
    [KeyError] and [IndexError], the other two leave them to the generic
    handler. *)
Definition shape_error (p : provider) (e : exn) : str :=
  match p with
  | Gemini => lit "Error parsing Gemini API response: " ++ exn_str e
  | OpenAI | Anthropic => generic_error e
  end.

(** A network that answers every request with the same reply. *)
Definition always (r : response) : World :=
  mkWorld (fun _ _ => Replies r) [] [] None.

(** A reply with status 200 whose body is the empty object. *)
Definition empty_object_reply : response :=
  Response 200 (lit "{}") (Ok (JObj [])).

(** What the request of [platform], the [i]-th of a run of a client that
    starts in [w], meets. *)
Definition met (p : provider) (api_key event_info tone : str) (w : World)
    (i : nat) (platform : str) : outcome :=
  network w (length (sent w) + i) (request_of p api_key event_info tone platform).

(** The mapping a run of a client builds: one entry per platform, each from
    what the request of that platform met. *)
Definition client_results (p : provider) (api_key event_info tone : str) (w : World)
    : gmap str str :=
  <[lit "WhatsApp" := entry_of p (met p api_key event_info tone w 2 (lit "WhatsApp"))]>
    (<[lit "Twitter" := entry_of p (met p api_key event_info tone w 1 (lit "Twitter"))]>
       (<[lit "LinkedIn" := entry_of p (met p api_key event_info tone w 0 (lit "LinkedIn"))]> ∅)).

(** The mapping a run of [generate] returns. *)
Definition generation_results (service : str) (f : form) (w : World) : gmap str str :=
  match provider_of service with
  | Some p =>
      client_results p (api_key f)
        (format_event_info (event_name f) (event_desc f) (event_date f) (event_location f))
        (tone f) w
  | None =>
      posts_dict (apply_tone (tone f) (event_name f) (event_desc f) (event_date f)
                    (event_location f)
                    (baseline_posts (event_name f) (event_desc f) (event_date f)
                       (event_location f)))
  end.

(** The scenario of the specification: the first request is refused with
    status 401, the later ones are answered with a well-formed body. *)
Definition openai_reply (content : str) : response :=
  Response 200 (lit "(body)")
    (Ok (JObj [(lit "choices",
                JArr [JObj [(lit "message", JObj [(lit "content", JStr content)])]])])).

Definition unauthorized : response :=
  Response 401 (lit "Unauthorized") (Raise (Exn ValueError (lit "Expecting value"))).

Definition first_refused : World :=
  mkWorld (fun n _ => match n with
                      | O => Replies unauthorized
                      | S _ => Replies (openai_reply (lit " A post. "))
                      end) [] [] None.

Definition tech_conf_form : form :=
  Form (lit "sk-test") (lit "Auto-detect") (lit "Tech Conf") [] [] (lit "Professional")
    (lit "A great event") true.

(** * Vocabulary of the further properties *)

(** ** Event-info blocks *)

(** A field that holds no line break. *)
Definition one_line (s : str) : Prop := 10 ∉ s.

(** ** Credentials *)

(** The shape the Gemini rule accepts: [AIza], then 35 characters of
    [[0-9A-Za-z_-]], then nothing or one final newline. *)
Definition gemini_key_shape (s : str) : Prop :=
  ∃ body,
    length body = 35%nat ∧ forallb key_char body = true
    ∧ (s = lit "AIza" ++ body ∨ s = lit "AIza" ++ body ++ NL).

(** The probe was answered with status 200. *)
Definition probe_succeeded (o : outcome) : bool :=
  match o with
  | Fails _ => false
  | Replies r => (status_code r =? 200)%Z
  end.

(** The world after one more request. *)
Definition requested (req : request) (w : World) : World :=
  mkWorld (network w) (sent w ++ [req]) (ui w) (session_posts w).

(** ** Clients *)

(** The name a client uses for itself in the entry of a refused request. *)
Definition provider_label (p : provider) : str :=
  match p with
  | OpenAI => lit "OpenAI"
  | Gemini => lit "Gemini"
  | Anthropic => lit "Anthropic"
  end.

(** The body text as the entry of a refused request quotes it: the Gemini
    client alone replaces an empty text. *)
Definition refusal_detail (p : provider) (r : response) : str :=
  match p with
  | Gemini => if truthy (text r) then text r else lit "Unknown error"
  | OpenAI | Anthropic => text r
  end.

(** The text of the spinner a client opens. *)
Definition spinner_text (p : provider) : str :=
  match p with
  | OpenAI => lit "Generating posts with OpenAI..."
  | Gemini => lit "Generating posts with Google/Gemini..."
  | Anthropic => lit "Generating posts with Anthropic/Claude..."
  end.

(** A string without white space at either end. *)
Definition trimmed (s : str) : Prop :=
  (∀ c, head s = Some c → is_space c = false)
  ∧ (∀ c, last s = Some c → is_space c = false).

(** A body whose [candidates] entry is [null]. *)
Definition null_candidates_reply : response :=
  Response 200 (lit "(body)") (Ok (JObj [(lit "candidates", JNull)])).

(** A reply with status 500 and no body text. *)
Definition empty_refusal : response :=
  Response 500 [] (Raise (Exn ValueError (lit "Expecting value"))).

(** ** One run of [main] *)

(** The requests the sidebar makes: the probe, when no pattern rule applies
    to the key. *)
Definition probe_part (key : str) : list request :=
  if reaches_probe key then [probe_request key] else [].

(** The service the sidebar detects in [w]. *)
Definition detected_service (key : str) (w : World) : str :=
  if truthy key then
    match value_of (detect_api_service key w) with
    | Ok service => service
    | Raise _ => []
    end
  else lit "Not Detected".

(** The service after the manual selection. *)
Definition chosen_service (f : form) (detected : str) : str :=
  if selected_service f == lit "Auto-detect" then detected
  else if selected_service f == lit "Use Mock Generator (No API)" then lit "Mock"
  else selected_service f.

(** The requests of a generation for [service]. *)
Definition generation_requests (service : str) (f : form) : list request :=
  match provider_of service with
  | Some p =>
      map (request_of p (api_key f)
             (format_event_info (event_name f) (event_desc f) (event_date f) (event_location f))
             (tone f))
        platforms
  | None => []
  end.

(** Name and description are filled in. *)
Definition fields_given (f : form) : bool :=
  truthy (event_name f) && truthy (event_desc f).

Definition success_toast : ui_event := StToast (lit "Posts generated successfully!").

(** The posts a fresh session starts with. *)
Definition empty_posts : gmap str str :=
  <[lit "WhatsApp" := []]> (<[lit "Twitter" := []]> (<[lit "LinkedIn" := []]> ∅)).

(** The world as the Generate handler finds it: the sidebar has sent its
    requests. *)
Definition after_sidebar (f : form) (w : World) : World :=
  mkWorld (network w) (sent w ++ probe_part (api_key f)) (ui w) (session_posts w).

(** The posts stored in the session, if any, have the three platform keys. *)
Definition well_keyed (w : World) : Prop :=
  ∀ p, session_posts w = Some p → dom p = platform_keys.

(** A form that asks for a generation with the given key and selection. *)
Definition tech_conf_with (key selected : str) : form :=
  Form key selected (lit "Tech Conf") [] [] (lit "Professional") (lit "A great event") true.

(** * Properties *)

(** ** Strings *)

Lemma str_eq_true (a b : str) : (a == b) = true ↔ a = b.
Proof. unfold str_eq. apply bool_decide_eq_true. Qed.

Lemma str_eq_false (a b : str) : (a == b) = false ↔ a ≠ b.
Proof. unfold str_eq. apply bool_decide_eq_false. Qed.

Lemma str_eq_refl (a : str) : (a == a) = true.
Proof. by apply str_eq_true. Qed.

Lemma startswith_app (p rest : str) : startswith (p ++ rest) p = true.
Proof. apply bool_decide_eq_true. by exists rest. Qed.

Lemma startswith_trans (s p q : str) :
  startswith p q = true → startswith s p = true → startswith s q = true.
Proof.
  unfold startswith. rewrite !bool_decide_eq_true. intros Hq Hp. by etrans.
Qed.

Lemma truthy_nonempty (s : str) : truthy s = true ↔ s ≠ [].
Proof. destruct s; simpl; split; intros; congruence. Qed.

Lemma truthy_empty (s : str) : truthy s = false ↔ s = [].
Proof. destruct s; simpl; split; intros; congruence. Qed.

Ltac unfold_monad :=
  unfold mbind, M_bind, mret, M_ret, Result_bind, Result_ret, lift, try_except,
    requests_get, requests_post, http, emit in *.

(** ** [detect_api_service] *)

Lemma sk_ant_starts_with_sk (s : str) :
  startswith s (lit "sk-ant-") = true → startswith s (lit "sk-") = true.
Proof.
  intros H. apply (startswith_trans s (lit "sk-ant-")); [| exact H].
  apply bool_decide_eq_true. by exists (lit "ant-").
Qed.

(** The branch that answers [Anthropic/Claude] stands behind the [sk-] test
    and is never taken. *)
Lemma detect_never_anthropic (api_key : str) (w : World) :
  value_of (detect_api_service api_key w) ≠ Ok (lit "Anthropic/Claude").
Proof.
  unfold detect_api_service, value_of.
  destruct (truthy api_key); simpl; [| discriminate].
  destruct (startswith api_key (lit "sk-")) eqn:Hsk; simpl; [discriminate |].
  destruct (re_match_gemini api_key); simpl; [discriminate |].
  destruct (startswith api_key (lit "sk-ant-")) eqn:Hant.
  { apply sk_ant_starts_with_sk in Hant. congruence. }
  unfold_monad.
  destruct (network w (length (sent w)) _) as [e | r]; simpl; [discriminate |].
  destruct (status_code r =? 200)%Z; simpl; discriminate.
Qed.

(** C1 (the code departs from the claim): a credential that starts with
    [sk-ant-] meets the generic [sk-] rule first, so [detect_api_service]
    answers [OpenAI] for it, without any request, and not
    [Anthropic/Claude]. *)
Theorem detect_sk_ant_is_openai (rest : str) (w : World) :
  detect_api_service (lit "sk-ant-" ++ rest) w = (Ok (lit "OpenAI"), w)
  ∧ lit "OpenAI" ≠ lit "Anthropic/Claude".
Proof.
  split; [| discriminate].
  pose proof (sk_ant_starts_with_sk _ (startswith_app (lit "sk-ant-") rest)) as Hsk.
  unfold detect_api_service.
  replace (truthy (lit "sk-ant-" ++ rest)) with true by reflexivity.
  simpl negb. cbv iota. rewrite Hsk. reflexivity.
Qed.

Example detect_sk_ant_api03 (w : World) :
  value_of (detect_api_service (lit "sk-ant-api03-abc") w) = Ok (lit "OpenAI").
Proof. reflexivity. Qed.

(** C8: [detect_api_service] returns a classification for every credential
    and every behaviour of the network, and never raises; when the probe is
    reached and fails (the request raises, or the status is not 200) the
    classification is [Unknown API service]. *)
Theorem detect_api_service_never_raises (api_key : str) (w : World) :
  (∃ service w', detect_api_service api_key w = (Ok service, w'))
  ∧ (reaches_probe api_key = true →
     probe_failed (network w (length (sent w)) (probe_request api_key)) →
     value_of (detect_api_service api_key w) = Ok (lit "Unknown API service")).
Proof.
  unfold detect_api_service, reaches_probe, value_of, probe_request.
  destruct (truthy api_key); simpl; [| split; [eauto | discriminate]].
  destruct (startswith api_key (lit "sk-")) eqn:Hsk; simpl;
    [split; [eauto | discriminate] |].
  destruct (re_match_gemini api_key); simpl; [split; [eauto | discriminate] |].
  destruct (startswith api_key (lit "sk-ant-")) eqn:Hant.
  { apply sk_ant_starts_with_sk in Hant. congruence. }
  unfold_monad.
  destruct (network w (length (sent w)) _) as [e | r]; simpl; [split; eauto |].
  destruct (Z.eqb_spec (status_code r) 200) as [Hst | Hst]; simpl; split; eauto.
  intros _ Hfail. by destruct Hfail.
Qed.

Lemma detect_api_service_never_raises_witness :
  value_of (detect_api_service (lit "my-key") offline) = Ok (lit "Unknown API service").
Proof.
  apply (proj2 (detect_api_service_never_raises (lit "my-key") offline));
    [reflexivity | exact I].
Defined.

(** ** [create_prompt] *)

Lemma twitter_limit_text :
  lit "The post should be concise (under " ++ str_of_int 280
    ++ lit " characters), engaging, and include relevant hashtags."
  = lit "The post should be concise (under 280 characters), engaging, and include relevant hashtags.".
Proof. reflexivity. Qed.

(** The prompt is the part through the tone restatement, then the clause of
    the tone. *)
Lemma create_prompt_parts (platform event_info tone : str) :
  create_prompt platform event_info tone
  = prompt_through_tone platform event_info tone ++ elaboration_clause tone.
Proof.
  unfold create_prompt, prompt_through_tone, elaboration_clause, platform_clause.
  cbv zeta.
  destruct (platform == lit "LinkedIn"), (platform == lit "Twitter"),
    (platform == lit "WhatsApp");
    rewrite ?twitter_limit_text;
    destruct (tone == lit "Sarcastic"), (tone == lit "Professional"),
      (tone == lit "Enthusiastic"), (tone == lit "Humorous");
    rewrite ?app_nil_r, <- ?app_assoc; reflexivity.
Qed.

Lemma elaboration_clause_nonempty (tone : str) :
  elaboration_clause tone ≠ [] ↔ tone ∈ elaborated_tones.
Proof.
  unfold elaboration_clause, elaborated_tones.
  rewrite !elem_of_cons, elem_of_nil.
  destruct (tone == lit "Sarcastic") eqn:Hs;
    [apply str_eq_true in Hs; split; [tauto | discriminate] |].
  destruct (tone == lit "Professional") eqn:Hp;
    [apply str_eq_true in Hp; split; [tauto | discriminate] |].
  destruct (tone == lit "Enthusiastic") eqn:He;
    [apply str_eq_true in He; split; [tauto | discriminate] |].
  destruct (tone == lit "Humorous") eqn:Hh;
    [apply str_eq_true in Hh; split; [tauto | discriminate] |].
  apply str_eq_false in Hs, Hp, He, Hh. split; [congruence | tauto].
Qed.

(** C6: [create_prompt] ends with the elaboration clause of the tone, after
    the tone restatement; the clause is non-empty for exactly the tones
    Sarcastic, Professional, Enthusiastic and Humorous, and there is none for
    Casual and Formal, whose prompts end with the tone restatement. *)
Theorem create_prompt_elaborates_four_tones (platform event_info tone : str) :
  create_prompt platform event_info tone
    = prompt_through_tone platform event_info tone ++ elaboration_clause tone
  ∧ (elaboration_clause tone ≠ [] ↔ tone ∈ elaborated_tones)
  ∧ create_prompt platform event_info (tone_name Casual)
      = prompt_through_tone platform event_info (tone_name Casual)
  ∧ create_prompt platform event_info (tone_name Formal)
      = prompt_through_tone platform event_info (tone_name Formal).
Proof.
  split; [apply create_prompt_parts |].
  split; [apply elaboration_clause_nonempty |].
  rewrite !create_prompt_parts. split; apply app_nil_r.
Qed.

Example create_prompt_twitter_casual :
  create_prompt (lit "Twitter") (lit "E") (lit "Casual")
  = lit "Create a casual Twitter post about the following event:" ++ NL ++ NL
    ++ lit "E" ++ NL
    ++ lit "The post should be concise (under 280 characters), engaging, and include relevant hashtags."
    ++ NL ++ lit "The tone should be casual.".
Proof. vm_compute. reflexivity. Qed.

Example create_prompt_linkedin_humorous :
  create_prompt (lit "LinkedIn") (lit "E") (lit "Humorous")
  = lit "Create a humorous LinkedIn post about the following event:" ++ NL ++ NL
    ++ lit "E" ++ NL
    ++ lit "The post should be professional, informative, and include relevant hashtags. It should be suitable for a business audience."
    ++ NL ++ lit "The tone should be humorous."
    ++ lit " Include appropriate jokes or wordplay while still being informative.".
Proof. vm_compute. reflexivity. Qed.

(** ** [generate_mock_posts] *)

Lemma generate_mock_posts_run (name desc date location tone : str) (w : World) :
  generate_mock_posts name desc date location tone w
  = (Ok (posts_dict (apply_tone tone name desc date location
                       (baseline_posts name desc date location))),
     mkWorld (network w) (sent w) (ui w ++ [Spinner (lit "Generating sample posts...")])
       (session_posts w)).
Proof. reflexivity. Qed.

Lemma posts_dict_linkedin (p : posts) : posts_dict p !! lit "LinkedIn" = Some (linkedin_post p).
Proof.
  unfold posts_dict.
  rewrite lookup_insert_ne by discriminate.
  rewrite lookup_insert_ne by discriminate.
  apply lookup_insert_eq.
Qed.

Lemma posts_dict_twitter (p : posts) : posts_dict p !! lit "Twitter" = Some (twitter_post p).
Proof.
  unfold posts_dict.
  rewrite lookup_insert_ne by discriminate.
  apply lookup_insert_eq.
Qed.

Lemma posts_dict_whatsapp (p : posts) : posts_dict p !! lit "WhatsApp" = Some (whatsapp_post p).
Proof. unfold posts_dict. apply lookup_insert_eq. Qed.

Lemma mock_post_linkedin (name desc date location tone : str) (w : World) :
  mock_post (lit "LinkedIn") name desc date location tone w
  = Some (linkedin_post (apply_tone tone name desc date location
                           (baseline_posts name desc date location))).
Proof. unfold mock_post. rewrite generate_mock_posts_run. apply posts_dict_linkedin. Qed.

Lemma mock_post_twitter (name desc date location tone : str) (w : World) :
  mock_post (lit "Twitter") name desc date location tone w
  = Some (twitter_post (apply_tone tone name desc date location
                          (baseline_posts name desc date location))).
Proof. unfold mock_post. rewrite generate_mock_posts_run. apply posts_dict_twitter. Qed.

Lemma mock_post_whatsapp (name desc date location tone : str) (w : World) :
  mock_post (lit "WhatsApp") name desc date location tone w
  = Some (whatsapp_post (apply_tone tone name desc date location
                           (baseline_posts name desc date location))).
Proof. unfold mock_post. rewrite generate_mock_posts_run. apply posts_dict_whatsapp. Qed.

Lemma swaps_templates_false (tone : str) :
  swaps_templates tone = false →
  (tone == lit "Sarcastic") = false ∧ (tone == lit "Enthusiastic") = false.
Proof. unfold swaps_templates. apply orb_false_elim. Qed.

(** Any other tone leaves the three variables as they are. *)
Lemma apply_tone_other (tone name desc date location : str) (current : posts) :
  swaps_templates tone = false →
  apply_tone tone name desc date location current = current.
Proof.
  intros [Hs He]%swaps_templates_false. unfold apply_tone.
  rewrite Hs, He. by destruct current.
Qed.







(** The Sarcastic Twitter post of an event with date and location, as the
    code prints it. *)
Example mock_sarcastic_twitter (w : World) :
  mock_post (lit "Twitter") (lit "Tech Conf") (lit "A great event") (lit "May 1") (lit "Pune")
    (lit "Sarcastic") w
  = Some (lit "Wow, Tech Conf! Because what we all needed was ANOTHER event to attend. "
            ++ e_eyeroll ++ lit " May 1 at Pune #blessed #sarcasm").
Proof. rewrite mock_post_twitter. reflexivity. Qed.

(** The scenario of the specification: Tech Conf, no date, no location,
    tone Professional. *)
Example mock_tech_conf_twitter (w : World) :
  mock_post (lit "Twitter") (lit "Tech Conf") (lit "A great event") [] [] (lit "Professional") w
  = Some (lit "Join us for Tech Conf! A great event #excited #event").
Proof. rewrite mock_post_twitter. reflexivity. Qed.

(** The baseline Twitter post, for a tone that keeps the baseline. *)
Lemma mock_twitter_baseline (name desc date location tone : str) (w : World) :
  swaps_templates tone = false →
  mock_post (lit "Twitter") name desc date location tone w
  = Some (lit "Join us for " ++ name ++ lit "! "
            ++ (if (100 <? length desc)%nat then take 80 desc ++ lit "..." else desc)
            ++ twitter_when date location ++ lit " #excited #event").
Proof.
  intros Hkeep. rewrite mock_post_twitter, apply_tone_other by done.
  unfold baseline_posts, twitter_when. cbn [twitter_post].
  by rewrite <- !app_assoc.
Qed.

(** C5: the baseline Twitter post of [generate_mock_posts] carries the first
    80 characters of the description and then [...] when the description is
    longer than 100 characters, and the whole description otherwise, so also
    for the lengths 81 to 100. *)
Theorem mock_twitter_truncates_description (name desc date location tone : str) (w : World) :
  swaps_templates tone = false →
  ((100 < length desc)%nat →
     mock_post (lit "Twitter") name desc date location tone w
     = Some (lit "Join us for " ++ name ++ lit "! " ++ (take 80 desc ++ lit "...")
               ++ twitter_when date location ++ lit " #excited #event"))
  ∧ ((length desc ≤ 100)%nat →
     mock_post (lit "Twitter") name desc date location tone w
     = Some (lit "Join us for " ++ name ++ lit "! " ++ desc
               ++ twitter_when date location ++ lit " #excited #event")).
Proof.
  intros Hkeep. rewrite mock_twitter_baseline by done.
  split; intros Hlen.
  - by rewrite (proj2 (Nat.ltb_lt _ _) Hlen).
  - by rewrite (proj2 (Nat.ltb_ge _ _) Hlen).
Qed.

Lemma mock_twitter_truncates_description_witness :
  mock_post (lit "Twitter") (lit "N") (replicate 101 97) [] [] (lit "Casual")
    (mkWorld (fun _ _ => Fails (Exn RequestException [])) [] [] None)
  = Some (lit "Join us for N! " ++ replicate 80 97 ++ lit "... #excited #event")
  ∧ mock_post (lit "Twitter") (lit "N") (replicate 100 97) [] [] (lit "Casual")
      (mkWorld (fun _ _ => Fails (Exn RequestException [])) [] [] None)
    = Some (lit "Join us for N! " ++ replicate 100 97 ++ lit " #excited #event").
Proof.
  split.
  - apply (proj1 (mock_twitter_truncates_description (lit "N") (replicate 101 97) [] []
                    (lit "Casual") _ eq_refl)).
    vm_compute. lia.
  - apply (proj2 (mock_twitter_truncates_description (lit "N") (replicate 100 97) [] []
                    (lit "Casual") _ eq_refl)).
    vm_compute. lia.
Defined.

(** ** Date and location in the mock posts *)

Lemma both_needed (date location : str) :
  exactly_one_given date location → truthy date && truthy location = false.
Proof.
  intros [[_ ->] | [-> _]]; [apply andb_false_r | reflexivity].
Qed.

(** C10: with exactly one of date and location filled in, the Twitter post
    of [generate_mock_posts] is, under every tone, the post of the same event
    with neither field, and under the tones Sarcastic and Enthusiastic so are
    the LinkedIn and the WhatsApp post: these templates show date and location
    only together.  The baseline LinkedIn and WhatsApp posts show the one
    field that is filled in: they differ from the posts with neither field. *)
Theorem mock_date_location_need_both (name desc date location tone : str) (w : World) :
  exactly_one_given date location →
  mock_post (lit "Twitter") name desc date location tone w
    = mock_post (lit "Twitter") name desc [] [] tone w
  ∧ (swaps_templates tone = true →
       mock_post (lit "LinkedIn") name desc date location tone w
         = mock_post (lit "LinkedIn") name desc [] [] tone w
       ∧ mock_post (lit "WhatsApp") name desc date location tone w
         = mock_post (lit "WhatsApp") name desc [] [] tone w)
  ∧ (swaps_templates tone = false →
       mock_post (lit "LinkedIn") name desc date location tone w
         ≠ mock_post (lit "LinkedIn") name desc [] [] tone w
       ∧ mock_post (lit "WhatsApp") name desc date location tone w
         ≠ mock_post (lit "WhatsApp") name desc [] [] tone w).
Proof.
  intros Hone. pose proof (both_needed _ _ Hone) as Hboth.
  rewrite !mock_post_twitter, !mock_post_linkedin, !mock_post_whatsapp.
  split; [| split].
  - unfold apply_tone.
    destruct (tone == lit "Sarcastic"); [| destruct (tone == lit "Enthusiastic")];
      unfold baseline_posts; cbn [twitter_post]; rewrite ?Hboth; cbn [truthy andb];
      reflexivity.
  - unfold swaps_templates, apply_tone. intros Hswap.
    destruct (tone == lit "Sarcastic");
      [| destruct (tone == lit "Enthusiastic"); [| discriminate]];
      cbn [linkedin_post whatsapp_post]; rewrite Hboth; cbn [truthy andb]; done.
  - intros Hkeep. rewrite !apply_tone_other by done.
    unfold baseline_posts. cbn [linkedin_post whatsapp_post truthy].
    destruct Hone as [[Hd ->] | [-> Hl]].
    + apply truthy_nonempty in Hd. rewrite Hd.
      split; intros [= H]; apply (f_equal length) in H;
        rewrite !length_app in H; unfold NL in H; cbn [length] in H; lia.
    + apply truthy_nonempty in Hl. rewrite Hl.
      split; intros [= H]; apply (f_equal length) in H;
        rewrite !length_app in H; unfold NL in H; cbn [length] in H; lia.
Qed.

Lemma mock_date_location_need_both_witness :
  mock_post (lit "Twitter") (lit "N") (lit "D") (lit "May 1") [] (lit "Professional") offline
    = mock_post (lit "Twitter") (lit "N") (lit "D") [] [] (lit "Professional") offline
  ∧ mock_post (lit "WhatsApp") (lit "N") (lit "D") [] (lit "Pune") (lit "Sarcastic") offline
    = mock_post (lit "WhatsApp") (lit "N") (lit "D") [] [] (lit "Sarcastic") offline.
Proof.
  split.
  - apply (mock_date_location_need_both (lit "N") (lit "D") (lit "May 1") []
             (lit "Professional") offline).
    left. split; [discriminate | reflexivity].
  - apply (mock_date_location_need_both (lit "N") (lit "D") [] (lit "Pune")
             (lit "Sarcastic") offline);
      [right; split; [reflexivity | discriminate] | reflexivity].
Defined.

Example mock_linkedin_date_only (w : World) :
  mock_post (lit "LinkedIn") (lit "N") (lit "D") (lit "May 1") [] (lit "Formal") w
  = Some (lit "I'm excited to announce N!" ++ NL ++ NL ++ lit "D" ++ NL ++ NL
            ++ e_calendar ++ lit " When: May 1" ++ NL ++ NL
            ++ lit "Looking forward to connecting with industry professionals at this event. #ProfessionalDevelopment #Networking").
Proof. rewrite mock_post_linkedin. reflexivity. Qed.

(** ** [main] and the Generate button *)

(** A run of [detect_api_service] returns, sends at most the probe, and
    leaves the Streamlit log and the session state alone. *)
Lemma detect_api_service_run (key : str) (w : World) :
  ∃ service reqs,
    detect_api_service key w
    = (Ok service, mkWorld (network w) (sent w ++ reqs) (ui w) (session_posts w)).
Proof.
  assert (Hsame : w = mkWorld (network w) (sent w ++ []) (ui w) (session_posts w))
    by (rewrite app_nil_r; by destruct w).
  unfold detect_api_service.
  destruct (truthy key); simpl; [| exists (lit "No API key provided"), []; by rewrite <- Hsame].
  destruct (startswith key (lit "sk-")); simpl;
    [exists (lit "OpenAI"), []; by rewrite <- Hsame |].
  destruct (re_match_gemini key); simpl;
    [exists (lit "Google/Gemini"), []; by rewrite <- Hsame |].
  destruct (startswith key (lit "sk-ant-")); simpl;
    [exists (lit "Anthropic/Claude"), []; by rewrite <- Hsame |].
  unfold_monad.
  destruct (network w (length (sent w)) _) as [e | r]; simpl; [eauto |].
  destruct (status_code r =? 200)%Z; simpl; eauto.
Qed.

(** The sidebar returns a service and does not touch the session state. *)
Lemma select_service_run (f : form) (w : World) :
  ∃ service w1,
    select_service f w = (Ok service, w1) ∧ session_posts w1 = session_posts w.
Proof.
  unfold select_service.
  destruct (truthy (api_key f)).
  - destruct (detect_api_service_run (api_key f) w) as (service & reqs & Hrun).
    unfold_monad. rewrite Hrun. simpl.
    destruct (selected_service f == lit "Auto-detect"); simpl; [eauto |].
    destruct (selected_service f == lit "Use Mock Generator (No API)"); simpl; eauto.
  - unfold_monad. simpl.
    destruct (selected_service f == lit "Auto-detect"); simpl; [eauto |].
    destruct (selected_service f == lit "Use Mock Generator (No API)"); simpl; eauto.
Qed.

Lemma on_generate_blocked (service : str) (f : form) (w : World) :
  generate_button f = true →
  event_name f = [] ∨ event_desc f = [] →
  on_generate service f w = (Ok tt, shown required_fields_error w).
Proof.
  intros Hbutton Hempty. unfold on_generate. rewrite Hbutton.
  assert (negb (truthy (event_name f)) || negb (truthy (event_desc f)) = true) as ->.
  { destruct Hempty as [-> | ->]; [reflexivity | apply orb_true_r]. }
  reflexivity.
Qed.

(** C7: when Generate is pressed with an empty event name or an empty event
    description, the button handler only shows the required-fields error: it
    sends no request, opens no spinner (every generator opens one first) and
    leaves [st.session_state.posts] as it was; a whole run of [main] on a
    session that holds posts [p] returns with [p] still stored and the error
    as its last message. *)
Theorem generate_blocked_without_required_fields (service : str) (f : form) (w : World) :
  generate_button f = true →
  event_name f = [] ∨ event_desc f = [] →
  on_generate service f w = (Ok tt, shown required_fields_error w)
  ∧ session_posts (shown required_fields_error w) = session_posts w
  ∧ sent (shown required_fields_error w) = sent w
  ∧ (∀ p, session_posts w = Some p →
       value_of (main f w) = Ok tt
       ∧ session_posts (world_of (main f w)) = Some p
       ∧ last (ui (world_of (main f w))) = Some required_fields_error).
Proof.
  intros Hbutton Hempty.
  split; [by apply on_generate_blocked |].
  split; [reflexivity |]. split; [reflexivity |].
  intros p Hp.
  destruct (select_service_run f w) as (service' & w1 & Hsel & Hposts).
  assert (Hmain : main f w = (Ok tt, shown required_fields_error w1)).
  { unfold main, mbind, M_bind. rewrite Hsel. unfold init_posts.
    rewrite Hposts, Hp. by apply on_generate_blocked. }
  rewrite Hmain. unfold value_of, world_of, shown. simpl.
  split; [reflexivity |]. split; [congruence |]. apply last_snoc.
Qed.

Lemma generate_blocked_without_required_fields_witness :
  on_generate (lit "OpenAI") form_without_description offline
  = (Ok tt, shown required_fields_error offline).
Proof.
  apply (generate_blocked_without_required_fields (lit "OpenAI") form_without_description offline);
    [reflexivity | right; reflexivity].
Defined.

(** ** The provider clients *)

(** One turn of a client sends the request of the platform, stores the entry
    that answers to what the request met, and goes on. *)
Lemma turn_run (p : provider) (api_key event_info tone platform : str)
    (results : gmap str str) (w : World) :
  let o := network w (length (sent w)) (request_of p api_key event_info tone platform) in
  turn_of p api_key event_info tone platform results w
  = (Ok (<[platform := entry_of p o]> results),
     mkWorld (network w) (sent w ++ [request_of p api_key event_info tone platform])
       (ui w ++ shows_of p o) (session_posts w)).
Proof.
  destruct p; cbv zeta; unfold turn_of, request_of, entry_of, shows_of, content_of,
    generic_error, openai_platform, gemini_platform, anthropic_platform;
    unfold_monad; cbv zeta.
  - destruct (network w (length (sent w)) _) as [e | r]; simpl; rewrite ?app_nil_r; [done |].
    destruct (status_code r =? 200)%Z; simpl; [| done].
    destruct (json_of r) as [result | e]; simpl; [| done].
    by destruct (openai_content result).
  - destruct (network w (length (sent w)) _) as [e | r]; simpl; rewrite ?app_nil_r; [done |].
    destruct (status_code r =? 200)%Z; simpl; rewrite ?app_nil_r; [| done].
    destruct (json_of r) as [result | e]; simpl; [| done].
    destruct (gemini_content result) as [c | e]; simpl; [done |].
    by destruct (key_or_index_error e).
  - destruct (network w (length (sent w)) _) as [e | r]; simpl; rewrite ?app_nil_r; [done |].
    destruct (status_code r =? 200)%Z; simpl; [| done].
    destruct (json_of r) as [result | e]; simpl; [| done].
    by destruct (anthropic_content result).
Qed.

(** The loop of a client makes its three turns whatever the requests meet. *)
Lemma loop_run (p : provider) (api_key event_info tone : str) (w : World) :
  ∃ evs,
    for_each platforms (turn_of p api_key event_info tone) ∅ w
    = (Ok (client_results p api_key event_info tone w),
       mkWorld (network w)
         (sent w ++ map (request_of p api_key event_info tone) platforms)
         (ui w ++ evs) (session_posts w)).
Proof.
  unfold platforms, client_results, met. cbn [for_each map].
  unfold mbind, M_bind, mret, M_ret.
  rewrite turn_run. cbv zeta. rewrite turn_run. cbv zeta. rewrite turn_run. cbv zeta.
  cbn [network sent ui session_posts].
  rewrite !length_app. cbn [length].
  rewrite Nat.add_0_r, <- !Nat.add_assoc. cbn [Nat.add].
  rewrite <- !app_assoc. cbn [app]. eauto.
Qed.

Lemma client_run (p : provider) (api_key name desc date location tone : str) (w : World) :
  ∃ msg evs,
    client p api_key name desc date location tone w
    = (Ok (client_results p api_key (format_event_info name desc date location) tone w),
       mkWorld (network w)
         (sent w ++ map (request_of p api_key (format_event_info name desc date location) tone)
                      platforms)
         (ui w ++ Spinner msg :: evs) (session_posts w)).
Proof.
  destruct p; unfold client, generate_with_openai, generate_with_gemini,
    generate_with_anthropic; cbv zeta; unfold mbind, M_bind, emit.
  - destruct (loop_run OpenAI api_key (format_event_info name desc date location) tone
                (mkWorld (network w) (sent w)
                   (ui w ++ [Spinner (lit "Generating posts with OpenAI...")])
                   (session_posts w))) as [evs Hloop].
    unfold turn_of in Hloop. rewrite Hloop. cbn [network sent ui session_posts].
    rewrite <- app_assoc. cbn [app]. eauto.
  - destruct (loop_run Gemini api_key (format_event_info name desc date location) tone
                (mkWorld (network w) (sent w)
                   (ui w ++ [Spinner (lit "Generating posts with Google/Gemini...")])
                   (session_posts w))) as [evs Hloop].
    unfold turn_of in Hloop. rewrite Hloop. cbn [network sent ui session_posts].
    rewrite <- app_assoc. cbn [app]. eauto.
  - destruct (loop_run Anthropic api_key (format_event_info name desc date location) tone
                (mkWorld (network w) (sent w)
                   (ui w ++ [Spinner (lit "Generating posts with Anthropic/Claude...")])
                   (session_posts w))) as [evs Hloop].
    unfold turn_of in Hloop. rewrite Hloop. cbn [network sent ui session_posts].
    rewrite <- app_assoc. cbn [app]. eauto.
Qed.

Lemma client_results_dom (p : provider) (api_key event_info tone : str) (w : World) :
  dom (client_results p api_key event_info tone w) = platform_keys.
Proof.
  unfold client_results, platform_keys, platforms.
  rewrite !dom_insert_L, dom_empty_L. cbn [list_to_set foldr]. set_solver.
Qed.

Lemma posts_dict_dom (p : posts) : dom (posts_dict p) = platform_keys.
Proof.
  unfold posts_dict, platform_keys, platforms.
  rewrite !dom_insert_L, dom_empty_L. cbn [list_to_set foldr]. set_solver.
Qed.

(** The entry of the [i]-th platform comes from what its own request met. *)
Lemma client_results_lookup (p : provider) (api_key event_info tone : str) (w : World)
    (i : nat) (platform : str) :
  platforms !! i = Some platform →
  client_results p api_key event_info tone w !! platform
  = Some (entry_of p (met p api_key event_info tone w i platform)).
Proof.
  unfold client_results.
  destruct i as [| [| [| i]]]; cbn; intros [= <-].
  - rewrite lookup_insert_ne by discriminate.
    rewrite lookup_insert_ne by discriminate.
    apply lookup_insert_eq.
  - rewrite lookup_insert_ne by discriminate.
    apply lookup_insert_eq.
  - apply lookup_insert_eq.
Qed.

Lemma posts_dict_lookup (p : posts) (i : nat) (platform : str) :
  platforms !! i = Some platform → is_Some (posts_dict p !! platform).
Proof.
  intros Hi. apply elem_of_dom. rewrite posts_dict_dom.
  unfold platform_keys. apply elem_of_list_to_set. by eapply list_elem_of_lookup_2.
Qed.


Lemma generation_results_dom (service : str) (f : form) (w : World) :
  dom (generation_results service f w) = platform_keys.
Proof.
  unfold generation_results.
  destruct (provider_of service); [apply client_results_dom | apply posts_dict_dom].
Qed.






(** Every generator opens a spinner: a run that shows none ran no
    generator. *)
Lemma generate_opens_spinner (service : str) (f : form) (w : World) :
  ∃ msg, Spinner msg ∈ ui (world_of (generate service f w)).
Proof.
  unfold generate.
  destruct (service == lit "OpenAI").
  { destruct (client_run OpenAI (api_key f) (event_name f) (event_desc f) (event_date f)
                (event_location f) (tone f) w) as (msg & evs & Hrun).
    cbn [client] in Hrun. rewrite Hrun. exists msg. unfold world_of. cbn [snd ui].
    rewrite elem_of_app, elem_of_cons. auto. }
  destruct (service == lit "Google/Gemini").
  { unfold mbind, M_bind, emit.
    destruct (client_run Gemini (api_key f) (event_name f) (event_desc f) (event_date f)
                (event_location f) (tone f)
                (mkWorld (network w) (sent w)
                   (ui w ++ [StInfo (lit "Using Gemini API. If you encounter errors, verify your API key and check that you have access to the Gemini Pro model.")])
                   (session_posts w))) as (msg & evs & Hrun).
    cbn [client] in Hrun. rewrite Hrun. exists msg. unfold world_of. cbn [snd ui].
    rewrite elem_of_app, elem_of_cons. auto. }
  destruct (service == lit "Anthropic/Claude").
  { destruct (client_run Anthropic (api_key f) (event_name f) (event_desc f) (event_date f)
                (event_location f) (tone f) w) as (msg & evs & Hrun).
    cbn [client] in Hrun. rewrite Hrun. exists msg. unfold world_of. cbn [snd ui].
    rewrite elem_of_app, elem_of_cons. auto. }
  rewrite generate_mock_posts_run. exists (lit "Generating sample posts...").
  unfold world_of. cbn [snd ui]. rewrite elem_of_app, elem_of_cons. auto.
Qed.





(** ** Replies whose body has not the expected shape *)

Lemma generic_error_not_parsing_error (e : exn) : ¬ parsing_error_string (generic_error e).
Proof.
  unfold parsing_error_string, generic_error. intros [k Hk].
  apply (f_equal (take 6)) in Hk. vm_compute in Hk. discriminate.
Qed.

Lemma shape_error_parsing_iff (p : provider) (e : exn) :
  parsing_error_string (shape_error p e) ↔ p = Gemini.
Proof.
  destruct p; simpl; split; try done.
  - intros H. by apply generic_error_not_parsing_error in H.
  - intros _. by exists (lit "Gemini API response: " ++ exn_str e).
  - intros H. by apply generic_error_not_parsing_error in H.
Qed.

Lemma entry_of_shape_error (p : provider) (r : response) (body : json) (e : exn) :
  status_code r = 200%Z → json_of r = Ok body →
  content_of p body = Raise e → key_or_index_error e = true →
  entry_of p (Replies r) = shape_error p e.
Proof.
  intros Hst Hjson Hcontent Hclass. unfold entry_of, shape_error.
  rewrite Hst, Hjson, Hcontent, Hclass. by destruct p.
Qed.

(** C3, as the code has it: when the reply for a platform has status 200
    and its body lacks a key or an index of the expected shape, every client
    stores an error string for that platform and goes on: the run returns, all
    three requests are sent and all three platforms get an entry.  The string
    is the parsing error [Error parsing Gemini API response: <exception>] in
    the Gemini client only; the OpenAI and the Anthropic client store the
    generic [Error: <exception>]. *)
Theorem shape_error_is_stored_and_run_continues
    (p : provider) (api_key name desc date location tone : str) (w : World)
    (i : nat) (platform : str) (r : response) (body : json) (e : exn) :
  platforms !! i = Some platform →
  (∀ req, network w (length (sent w) + i) req = Replies r) →
  status_code r = 200%Z → json_of r = Ok body →
  content_of p body = Raise e → key_or_index_error e = true →
  ∃ results w',
    client p api_key name desc date location tone w = (Ok results, w')
    ∧ results !! platform = Some (shape_error p e)
    ∧ (parsing_error_string (shape_error p e) ↔ p = Gemini)
    ∧ dom results = platform_keys
    ∧ length (sent w') = (length (sent w) + 3)%nat.
Proof.
  intros Hi Hnet Hst Hjson Hcontent Hclass.
  destruct (client_run p api_key name desc date location tone w) as (msg & evs & Hrun).
  eexists _, _. split; [exact Hrun |].
  split.
  { rewrite (client_results_lookup _ _ _ _ _ i) by done.
    unfold met. rewrite Hnet. f_equal. by eapply entry_of_shape_error. }
  split; [apply shape_error_parsing_iff |].
  split; [apply client_results_dom |].
  cbn [sent]. by rewrite length_app.
Qed.

Lemma shape_error_is_stored_and_run_continues_witness :
  ∃ results w',
    generate_with_gemini (lit "AIza-test") (lit "Tech Conf") (lit "A great event") [] []
      (lit "Casual") (always empty_object_reply) = (Ok results, w')
    ∧ results !! lit "Twitter" = Some (lit "Error parsing Gemini API response: 'candidates'")
    ∧ dom results = platform_keys.
Proof.
  destruct (shape_error_is_stored_and_run_continues Gemini (lit "AIza-test") (lit "Tech Conf")
              (lit "A great event") [] [] (lit "Casual") (always empty_object_reply)
              1%nat (lit "Twitter") empty_object_reply (JObj [])
              (Exn KeyError (lit "'candidates'")))
    as (results & w' & Hrun & Hentry & _ & Hdom & _); try reflexivity.
  exists results, w'. split; [exact Hrun |]. split; [exact Hentry | exact Hdom].
Defined.

(** C3, as the specification words it, fails for the OpenAI client: a reply
    with status 200 and the body [{}] lacks the key [choices], and the entry
    stored for LinkedIn is [Error: 'choices'], which is no parsing-error
    string but the very string a failed connection with that text leaves. *)
Lemma openai_shape_error_is_generic :
  status_code empty_object_reply = 200%Z
  ∧ json_of empty_object_reply = Ok (JObj [])
  ∧ openai_content (JObj []) = Raise (Exn KeyError (lit "'choices'"))
  ∧ key_or_index_error (Exn KeyError (lit "'choices'")) = true
  ∧ ∃ results w',
      generate_with_openai (lit "sk-test") (lit "Tech Conf") (lit "A great event") [] []
        (lit "Casual") (always empty_object_reply) = (Ok results, w')
      ∧ results !! lit "LinkedIn" = Some (lit "Error: 'choices'")
      ∧ ¬ parsing_error_string (lit "Error: 'choices'")
      ∧ entry_of OpenAI (Fails (Exn RequestException (lit "'choices'")))
        = lit "Error: 'choices'".
Proof.
  repeat (split; [reflexivity |]).
  destruct (client_run OpenAI (lit "sk-test") (lit "Tech Conf") (lit "A great event") [] []
              (lit "Casual") (always empty_object_reply)) as (msg & evs & Hrun).
  eexists _, _. split; [exact Hrun |].
  split; [by rewrite (client_results_lookup _ _ _ _ _ 0%nat) |].
  split; [apply (generic_error_not_parsing_error (Exn KeyError (lit "'choices'"))) |].
  reflexivity.
Qed.

(** * Further properties *)

(** ** [format_event_info] *)

Lemma split_at_newline (a a' r r' : str) :
  one_line a → one_line a' → a ++ NL ++ r = a' ++ NL ++ r' → a = a' ∧ r = r'.
Proof.
  unfold one_line, NL. revert a'.
  induction a as [| c a IH]; intros [| c' a'] Ha Ha' H; cbn in H.
  - split; [done | congruence].
  - injection H as <- _. exfalso. apply Ha'. by left.
  - injection H as -> _. exfalso. apply Ha. by left.
  - injection H as -> H. apply not_elem_of_cons in Ha as [_ Ha].
    apply not_elem_of_cons in Ha' as [_ Ha'].
    destruct (IH a' Ha Ha' H) as [-> ->]. done.
Qed.

(** X1: on fields without line breaks [format_event_info] loses nothing:
    two events with the same block have the same name, description, date and
    location. *)
Theorem format_event_info_injective (name desc date location name' desc' date' location' : str) :
  one_line name → one_line desc → one_line date → one_line location →
  one_line name' → one_line desc' → one_line date' → one_line location' →
  format_event_info name desc date location = format_event_info name' desc' date' location' →
  name = name' ∧ desc = desc' ∧ date = date' ∧ location = location'.
Proof.
  intros Hn Hd Hda Hl Hn' Hd' Hda' Hl' H.
  apply (f_equal (λ s : str, s ++ [])) in H. cbv beta in H.
  unfold format_event_info in H. cbv zeta in H.
  destruct (truthy date) eqn:Tda; destruct (truthy location) eqn:Tl;
    destruct (truthy date') eqn:Tda'; destruct (truthy location') eqn:Tl';
    rewrite <- ?app_assoc in H;
    apply app_inv_head in H;
    (apply split_at_newline in H; [| assumption | assumption]);
    destruct H as [<- H];
    apply app_inv_head in H;
    (apply split_at_newline in H; [| assumption | assumption]);
    destruct H as [<- H];
    apply truthy_nonempty in Tda || apply truthy_empty in Tda;
    apply truthy_nonempty in Tl || apply truthy_empty in Tl;
    apply truthy_nonempty in Tda' || apply truthy_empty in Tda';
    apply truthy_nonempty in Tl' || apply truthy_empty in Tl';
    try (exfalso; apply (f_equal (take 1)) in H; vm_compute in H; discriminate H);
    repeat (apply app_inv_head in H;
            apply split_at_newline in H; [| assumption | assumption];
            let E := fresh "E" in destruct H as [E H]; subst);
    try (exfalso; apply (f_equal (take 1)) in H; vm_compute in H; discriminate H);
    subst; done.
Qed.

Ltac one_line_closed := apply (bool_decide_unpack _); vm_compute; exact I.

Lemma format_event_info_injective_witness :
  lit "Tech" ++ lit " Conf" = lit "Tech Conf" ∧ lit "A great event" = lit "A great event"
  ∧ lit "May 1" = lit "May " ++ lit "1" ∧ (@nil N) = [].
Proof.
  apply (format_event_info_injective (lit "Tech" ++ lit " Conf") (lit "A great event")
           (lit "May 1") [] (lit "Tech Conf") (lit "A great event") (lit "May " ++ lit "1") []);
    first [reflexivity | one_line_closed].
Defined.

(** X2: [format_event_info] does not escape line breaks: a description that
    goes on with a line [Date: d] gives the very block of the event that has
    [d] as its date, so the injectivity above needs its one-line fields. *)
Theorem format_event_info_forged_date (name desc date : str) :
  date ≠ [] →
  format_event_info name (desc ++ NL ++ lit "Date: " ++ date) [] []
  = format_event_info name desc date [].
Proof.
  intros Hdate%truthy_nonempty. unfold format_event_info. cbv zeta.
  rewrite Hdate. cbn [truthy]. by rewrite <- !app_assoc.
Qed.

Lemma format_event_info_forged_date_witness :
  format_event_info (lit "Tech Conf") (lit "A great event" ++ NL ++ lit "Date: " ++ lit "May 1") [] []
  = format_event_info (lit "Tech Conf") (lit "A great event") (lit "May 1") [].
Proof. apply format_event_info_forged_date. discriminate. Defined.

(** ** [create_prompt] *)

(** X3: [create_prompt] carries the event-info block whole, for Twitter too:
    the prompt is a header, the block and a trailer, where header and trailer
    depend on platform and tone only; so the length of the prompt grows with
    the block one for one and nothing of the block is cut. *)
Theorem create_prompt_embeds_event_info (platform tone : str) :
  ∃ header trailer : str,
    ∀ event_info : str,
      create_prompt platform event_info tone = header ++ event_info ++ trailer
      ∧ length (create_prompt platform event_info tone)
        = (length header + length event_info + length trailer)%nat.
Proof.
  exists (lit "Create a " ++ lower tone ++ lit " " ++ platform
            ++ lit " post about the following event:" ++ NL ++ NL),
    (NL ++ platform_clause platform ++ NL ++ lit "The tone should be " ++ lower tone
       ++ lit "." ++ elaboration_clause tone).
  intros event_info.
  assert (Heq : create_prompt platform event_info tone
                = (lit "Create a " ++ lower tone ++ lit " " ++ platform
                     ++ lit " post about the following event:" ++ NL ++ NL)
                  ++ event_info
                  ++ (NL ++ platform_clause platform ++ NL ++ lit "The tone should be "
                        ++ lower tone ++ lit "." ++ elaboration_clause tone)).
  { rewrite create_prompt_parts. unfold prompt_through_tone. by rewrite <- !app_assoc. }
  split; [exact Heq |]. rewrite Heq, !length_app. lia.
Qed.

(** ** [detect_api_service] *)

Lemma re_match_gemini_shape (s : str) : re_match_gemini s = true ↔ gemini_key_shape s.
Proof.
  unfold re_match_gemini, gemini_key_shape. split.
  - intros [[[Hstart Hchars]%andb_prop Hlen]%andb_prop Hend]%andb_prop.
    apply bool_decide_eq_true in Hstart as [rest ->].
    change (drop 4 (lit "AIza" ++ rest)) with rest in *.
    change (drop 39 (lit "AIza" ++ rest)) with (drop 35 rest) in *.
    apply Nat.eqb_eq in Hlen.
    exists (take 35 rest). split; [done |]. split; [done |].
    apply orb_prop in Hend as [Hend%str_eq_true | Hend%str_eq_true].
    + left. rewrite <- (take_drop 35 rest) at 1. by rewrite Hend, app_nil_r.
    + right. rewrite <- (take_drop 35 rest) at 1. by rewrite Hend.
  - intros (body & Hlen & Hchars & [-> | ->]).
    + change (drop 4 (lit "AIza" ++ body)) with body.
      change (drop 39 (lit "AIza" ++ body)) with (drop 35 body).
      rewrite startswith_app, take_ge, Hchars, Hlen, drop_ge by lia. reflexivity.
    + change (drop 4 (lit "AIza" ++ body ++ NL)) with (body ++ NL).
      change (drop 39 (lit "AIza" ++ body ++ NL)) with (drop 35 (body ++ NL)).
      rewrite startswith_app, !take_app_length', drop_app_length' by done.
      rewrite Hchars, Hlen. reflexivity.
Qed.

Lemma gemini_shape_not_sk (s : str) :
  gemini_key_shape s → truthy s = true ∧ startswith s (lit "sk-") = false.
Proof.
  intros (body & _ & _ & [-> | ->]); (split; [reflexivity |]);
    apply bool_decide_eq_false; intros [k Hk]; discriminate Hk.
Qed.

(** X4: [detect_api_service] answers [Google/Gemini] exactly for the
    credentials made of [AIza] and 35 characters of [[0-9A-Za-z_-]], with or
    without one final newline ([$] of the pattern allows it), and then it
    sends no request. *)
Theorem detect_gemini_iff_shape (api_key : str) (w : World) :
  (value_of (detect_api_service api_key w) = Ok (lit "Google/Gemini")
   ↔ gemini_key_shape api_key)
  ∧ (gemini_key_shape api_key →
     detect_api_service api_key w = (Ok (lit "Google/Gemini"), w)).
Proof.
  assert (Hshape : gemini_key_shape api_key →
                   detect_api_service api_key w = (Ok (lit "Google/Gemini"), w)).
  { intros Hs. destruct (gemini_shape_not_sk _ Hs) as [Ht Hsk].
    apply re_match_gemini_shape in Hs. unfold detect_api_service.
    by rewrite Ht, Hsk, Hs. }
  split; [| exact Hshape]. split; [| by intros ->%Hshape].
  unfold detect_api_service, value_of.
  destruct (truthy api_key); simpl; [| discriminate].
  destruct (startswith api_key (lit "sk-")) eqn:Hsk; simpl; [discriminate |].
  destruct (re_match_gemini api_key) eqn:Hre; simpl;
    [intros _; by apply re_match_gemini_shape |].
  destruct (startswith api_key (lit "sk-ant-")) eqn:Hant; simpl; [discriminate |].
  unfold_monad.
  destruct (network w (length (sent w)) _) as [e | r]; simpl; [discriminate |].
  destruct (status_code r =? 200)%Z; simpl; discriminate.
Qed.

Lemma detect_gemini_iff_shape_witness :
  detect_api_service (lit "AIza" ++ replicate 35 97) offline = (Ok (lit "Google/Gemini"), offline)
  ∧ detect_api_service (lit "AIza" ++ replicate 35 45 ++ NL) offline
    = (Ok (lit "Google/Gemini"), offline).
Proof.
  split.
  - apply (proj2 (detect_gemini_iff_shape (lit "AIza" ++ replicate 35 97) offline)).
    exists (replicate 35 97). split; [reflexivity |]. split; [reflexivity |]. by left.
  - apply (proj2 (detect_gemini_iff_shape (lit "AIza" ++ replicate 35 45 ++ NL) offline)).
    exists (replicate 35 45). split; [reflexivity |]. split; [reflexivity |]. by right.
Defined.

(** The two ways a run of [detect_api_service] goes. *)
Lemma detect_api_service_cases (api_key : str) (w : World) :
  if reaches_probe api_key then
    detect_api_service api_key w
    = (Ok (if probe_succeeded (network w (length (sent w)) (probe_request api_key))
           then lit "OpenAI" else lit "Unknown API service"),
       requested (probe_request api_key) w)
  else
    ∃ service,
      detect_api_service api_key w = (Ok service, w)
      ∧ service ∈ [lit "No API key provided"; lit "OpenAI"; lit "Google/Gemini"].
Proof.
  unfold reaches_probe, detect_api_service, probe_request, requested, probe_succeeded.
  destruct (truthy api_key); simpl; [| eexists; split; [done | set_solver]].
  destruct (startswith api_key (lit "sk-")) eqn:Hsk; simpl;
    [eexists; split; [done | set_solver] |].
  destruct (re_match_gemini api_key); simpl; [eexists; split; [done | set_solver] |].
  destruct (startswith api_key (lit "sk-ant-")) eqn:Hant.
  { apply sk_ant_starts_with_sk in Hant. congruence. }
  unfold_monad.
  destruct (network w (length (sent w)) _) as [e | r]; simpl; [done |].
  by destruct (status_code r =? 200)%Z.
Qed.

(** X5: [detect_api_service] sends at most one request.  When a pattern
    rule applies (the key is empty, starts with [sk-] or has the Gemini shape)
    it sends none and leaves the world as it is; otherwise it sends exactly
    the probe, a GET of the models list with the key as bearer token, and
    answers [OpenAI] when the reply has status 200 and [Unknown API service]
    in every other case. *)
Theorem detect_sends_the_probe_or_nothing (api_key : str) (w : World) :
  if reaches_probe api_key then
    detect_api_service api_key w
    = (Ok (if probe_succeeded (network w (length (sent w)) (probe_request api_key))
           then lit "OpenAI" else lit "Unknown API service"),
       requested (probe_request api_key) w)
  else
    ∃ service,
      detect_api_service api_key w = (Ok service, w)
      ∧ service ∈ [lit "No API key provided"; lit "OpenAI"; lit "Google/Gemini"].
Proof. apply detect_api_service_cases. Qed.

(** ** The provider clients *)

(** The loop of a client, with all it leaves in the world. *)
Lemma loop_run_full (p : provider) (api_key event_info tone : str) (w : World) :
  for_each platforms (turn_of p api_key event_info tone) ∅ w
  = (Ok (client_results p api_key event_info tone w),
     mkWorld (network w)
       (sent w ++ map (request_of p api_key event_info tone) platforms)
       (ui w ++ shows_of p (met p api_key event_info tone w 0 (lit "LinkedIn"))
             ++ shows_of p (met p api_key event_info tone w 1 (lit "Twitter"))
             ++ shows_of p (met p api_key event_info tone w 2 (lit "WhatsApp")))
       (session_posts w)).
Proof.
  unfold platforms, client_results, met. cbn [for_each map].
  unfold mbind, M_bind, mret, M_ret.
  rewrite turn_run. cbv zeta. rewrite turn_run. cbv zeta. rewrite turn_run. cbv zeta.
  cbn [network sent ui session_posts].
  rewrite !length_app. cbn [length].
  rewrite Nat.add_0_r, <- !Nat.add_assoc. cbn [Nat.add].
  rewrite <- !app_assoc. cbn [app]. reflexivity.
Qed.

Lemma client_run_full (p : provider) (api_key name desc date location tone : str) (w : World) :
  let event_info := format_event_info name desc date location in
  client p api_key name desc date location tone w
  = (Ok (client_results p api_key event_info tone w),
     mkWorld (network w)
       (sent w ++ map (request_of p api_key event_info tone) platforms)
       (ui w ++ [Spinner (spinner_text p)]
             ++ shows_of p (met p api_key event_info tone w 0 (lit "LinkedIn"))
             ++ shows_of p (met p api_key event_info tone w 1 (lit "Twitter"))
             ++ shows_of p (met p api_key event_info tone w 2 (lit "WhatsApp")))
       (session_posts w)).
Proof.
  cbv zeta.
  destruct p; unfold client, generate_with_openai, generate_with_gemini,
    generate_with_anthropic, spinner_text; cbv zeta; unfold mbind, M_bind, emit.
  - pose proof (loop_run_full OpenAI api_key (format_event_info name desc date location) tone
                  (mkWorld (network w) (sent w)
                     (ui w ++ [Spinner (lit "Generating posts with OpenAI...")])
                     (session_posts w))) as Hloop.
    unfold turn_of in Hloop. rewrite Hloop. cbn [network sent ui session_posts].
    by rewrite <- !app_assoc.
  - pose proof (loop_run_full Gemini api_key (format_event_info name desc date location) tone
                  (mkWorld (network w) (sent w)
                     (ui w ++ [Spinner (lit "Generating posts with Google/Gemini...")])
                     (session_posts w))) as Hloop.
    unfold turn_of in Hloop. rewrite Hloop. cbn [network sent ui session_posts].
    by rewrite <- !app_assoc.
  - pose proof (loop_run_full Anthropic api_key (format_event_info name desc date location) tone
                  (mkWorld (network w) (sent w)
                     (ui w ++ [Spinner (lit "Generating posts with Anthropic/Claude...")])
                     (session_posts w))) as Hloop.
    unfold turn_of in Hloop. rewrite Hloop. cbn [network sent ui session_posts].
    by rewrite <- !app_assoc.
Qed.

(** X6: a run of a client sends exactly three requests, for LinkedIn,
    Twitter and WhatsApp in this order, each a POST that carries the prompt of
    its platform, whatever the earlier requests met: no request is repeated
    and none is left out after a failure.  The session state is not touched. *)
Theorem client_sends_one_request_per_platform
    (p : provider) (api_key name desc date location tone : str) (w : World) :
  let event_info := format_event_info name desc date location in
  let w' := world_of (client p api_key name desc date location tone w) in
  sent w' = sent w ++ [ request_of p api_key event_info tone (lit "LinkedIn");
                        request_of p api_key event_info tone (lit "Twitter");
                        request_of p api_key event_info tone (lit "WhatsApp") ]
  ∧ Forall (λ req, req_method req = POST) (drop (length (sent w)) (sent w'))
  ∧ session_posts w' = session_posts w.
Proof.
  cbv zeta. rewrite client_run_full. unfold world_of. cbn [snd sent session_posts map platforms].
  split; [reflexivity |]. split; [| reflexivity].
  rewrite drop_app_length. by destruct p; repeat constructor.
Qed.

(** X7: the entry of a platform whose request failed tells how.  A request
    that raised leaves [Error: <exception text>]; a reply with a status other
    than 200 leaves [Error with <provider> API: <body text>], with the body
    text as it came, except that the Gemini client writes [Unknown error] for
    an empty one. *)
Theorem client_failure_entries
    (p : provider) (api_key name desc date location tone : str) (w : World)
    (i : nat) (platform : str) :
  platforms !! i = Some platform →
  ∃ results w',
    client p api_key name desc date location tone w = (Ok results, w')
    ∧ match met p api_key (format_event_info name desc date location) tone w i platform with
      | Fails e => results !! platform = Some (lit "Error: " ++ exn_str e)
      | Replies r =>
          status_code r ≠ 200%Z →
          results !! platform
          = Some (lit "Error with " ++ provider_label p ++ lit " API: " ++ refusal_detail p r)
      end.
Proof.
  intros Hi. rewrite client_run_full. cbv zeta. eexists _, _. split; [reflexivity |].
  rewrite (client_results_lookup _ _ _ _ _ i) by done.
  destruct (met p api_key _ tone w i platform) as [e | r]; [reflexivity |].
  intros Hst. unfold entry_of.
  destruct (Z.eqb_spec (status_code r) 200) as [| _]; [done |].
  by destruct p.
Qed.

Lemma client_failure_entries_witness :
  ∃ results w',
    generate_with_gemini (lit "AIza-test") (lit "Tech Conf") (lit "A great event") [] []
      (lit "Casual") (always empty_refusal) = (Ok results, w')
    ∧ results !! lit "WhatsApp" = Some (lit "Error with Gemini API: Unknown error").
Proof.
  destruct (client_failure_entries Gemini (lit "AIza-test") (lit "Tech Conf")
              (lit "A great event") [] [] (lit "Casual") (always empty_refusal)
              2%nat (lit "WhatsApp") eq_refl) as (results & w' & Hrun & Hentry).
  exists results, w'. split; [exact Hrun |]. apply Hentry. discriminate.
Defined.

(** X8: with status 200, a body that is not JSON, and a body whose shape
    fails otherwise than by a missing key or index (a [null], a number or a
    list where an object is read: a [TypeError] or [AttributeError]), leave
    the generic [Error: <exception text>] in every client, the Gemini client
    included: its parsing handler takes [KeyError] and [IndexError] only. *)
Theorem client_other_body_errors_are_generic
    (p : provider) (api_key name desc date location tone : str) (w : World)
    (i : nat) (platform : str) (r : response) (e : exn) :
  platforms !! i = Some platform →
  met p api_key (format_event_info name desc date location) tone w i platform = Replies r →
  status_code r = 200%Z →
  json_of r = Raise e
  ∨ (∃ body, json_of r = Ok body ∧ content_of p body = Raise e
             ∧ key_or_index_error e = false) →
  ∃ results w',
    client p api_key name desc date location tone w = (Ok results, w')
    ∧ results !! platform = Some (lit "Error: " ++ exn_str e).
Proof.
  intros Hi Hmet Hst Hbody. rewrite client_run_full. cbv zeta.
  eexists _, _. split; [reflexivity |].
  rewrite (client_results_lookup _ _ _ _ _ i) by done.
  rewrite Hmet. unfold entry_of. rewrite Hst. cbn [Z.eqb Pos.eqb].
  destruct Hbody as [-> | (body & -> & -> & Hclass)]; [reflexivity |].
  rewrite Hclass. by destruct p.
Qed.

Lemma client_other_body_errors_are_generic_witness :
  ∃ results w',
    generate_with_gemini (lit "AIza-test") (lit "Tech Conf") (lit "A great event") [] []
      (lit "Casual") (always null_candidates_reply) = (Ok results, w')
    ∧ results !! lit "LinkedIn"
      = Some (lit "Error: 'NoneType' object is not subscriptable").
Proof.
  apply (client_other_body_errors_are_generic Gemini (lit "AIza-test") (lit "Tech Conf")
           (lit "A great event") [] [] (lit "Casual") (always null_candidates_reply)
           0%nat (lit "LinkedIn") null_candidates_reply
           (Exn TypeError (lit "'NoneType' object is not subscriptable")));
    [reflexivity | reflexivity | reflexivity |].
  right. exists (JObj [(lit "candidates", JNull)]). by repeat split.
Defined.

(** ** [strip] and the text a client keeps *)

Lemma rev_reverse (s : str) : rev s = reverse s.
Proof. by rewrite rev_alt. Qed.

Lemma lstrip_head (s : str) (c : N) : head (lstrip s) = Some c → is_space c = false.
Proof.
  induction s as [| c0 s IH]; cbn [lstrip]; [done |].
  destruct (is_space c0) eqn:Hc0; [exact IH |]. by intros [= <-].
Qed.

Lemma lstrip_last (s : str) (c : N) : last (lstrip s) = Some c → last s = Some c.
Proof.
  induction s as [| c0 s IH]; cbn [lstrip]; [done |].
  destruct (is_space c0); [| done].
  intros H. specialize (IH H). rewrite last_cons, IH. done.
Qed.

Lemma lstrip_fixed (s : str) :
  (∀ c, head s = Some c → is_space c = false) → lstrip s = s.
Proof.
  destruct s as [| c s]; [done |]. intros H. cbn [lstrip].
  by rewrite (H c eq_refl).
Qed.

Lemma strip_trimmed (s : str) : trimmed (strip s).
Proof.
  unfold trimmed, strip. rewrite !rev_reverse. split; intros c.
  - rewrite head_reverse. intros H%lstrip_last.
    rewrite last_reverse in H. by apply lstrip_head in H.
  - rewrite last_reverse. apply lstrip_head.
Qed.

Lemma strip_fixed (s : str) : trimmed s → strip s = s.
Proof.
  intros [Hhead Hlast]. unfold strip. rewrite !rev_reverse.
  rewrite (lstrip_fixed s Hhead).
  rewrite (lstrip_fixed (reverse s)); [apply reverse_involutive |].
  intros c. rewrite head_reverse. apply Hlast.
Qed.

Lemma result_bind_ok {A B} (f : A → Result B) (m : Result A) (b : B) :
  (m ≫= f) = Ok b → ∃ a, m = Ok a ∧ f a = Ok b.
Proof. destruct m as [a | e]; [by exists a | discriminate]. Qed.

Lemma json_strip_ok (v : json) (c : str) : json_strip v = Ok c → ∃ s, c = strip s.
Proof. destruct v; try discriminate. intros [= <-]. eauto. Qed.

(** X9: the text a client keeps from a well-formed body is stripped: it
    has no white space at either end, and stripping it again changes nothing. *)
Theorem client_content_is_stripped (p : provider) (body : json) (content : str) :
  content_of p body = Ok content →
  trimmed content ∧ strip content = content.
Proof.
  intros H.
  assert (Hs : ∃ s, content = strip s).
  { destruct p; unfold content_of, openai_content, gemini_content, anthropic_content in H;
      repeat (apply result_bind_ok in H as (? & _ & H)); by apply json_strip_ok in H. }
  destruct Hs as [s ->]. split; [apply strip_trimmed |].
  apply strip_fixed, strip_trimmed.
Qed.

Lemma client_content_is_stripped_witness :
  strip (lit "A post.") = lit "A post.".
Proof.
  apply (client_content_is_stripped OpenAI
           (JObj [(lit "choices",
                   JArr [JObj [(lit "message",
                                JObj [(lit "content", JStr (NL ++ lit "  A post. " ++ NL))])]])])
           (lit "A post.")).
  reflexivity.
Defined.

(** ** What the clients show *)

(** X10: failures of the OpenAI and the Anthropic client are not shown:
    whatever the requests meet, all a run shows is its spinner, and a failure
    is to be read in the entry of its platform.  The Gemini client shows, for
    each platform answered with a status other than 200, an [st.error] that
    quotes the status. *)
Theorem client_messages
    (p : provider) (api_key name desc date location tone : str) (w : World) :
  let event_info := format_event_info name desc date location in
  let w' := world_of (client p api_key name desc date location tone w) in
  (p ≠ Gemini → ui w' = ui w ++ [Spinner (spinner_text p)])
  ∧ (p = Gemini →
     ∀ i platform r,
       platforms !! i = Some platform →
       met p api_key event_info tone w i platform = Replies r →
       status_code r ≠ 200%Z →
       StError (lit "Gemini API Error (" ++ str_of_int (status_code r) ++ lit "): "
                  ++ refusal_detail Gemini r) ∈ ui w').
Proof.
  cbv zeta. rewrite client_run_full. unfold world_of. cbn [snd ui]. split.
  - intros Hp. destruct p; [| done |]; unfold shows_of;
      repeat match goal with |- context [met ?a ?b ?c ?d ?e ?f ?g] =>
               destruct (met a b c d e f g) end;
      by rewrite ?app_nil_r.
  - intros -> i platform r Hi Hmet Hst.
    assert (Hshow : shows_of Gemini (Replies r)
                    = [StError (lit "Gemini API Error (" ++ str_of_int (status_code r)
                                  ++ lit "): " ++ refusal_detail Gemini r)]).
    { unfold shows_of. by destruct (Z.eqb_spec (status_code r) 200). }
    destruct i as [| [| [| i]]]; [| | | done].
    + change (Some (lit "LinkedIn") = Some platform) in Hi. injection Hi as <-.
      rewrite Hmet, Hshow. set_solver.
    + change (Some (lit "Twitter") = Some platform) in Hi. injection Hi as <-.
      rewrite Hmet, Hshow. set_solver.
    + change (Some (lit "WhatsApp") = Some platform) in Hi. injection Hi as <-.
      rewrite Hmet, Hshow. set_solver.
Qed.

(** ** The length of the mock Twitter post *)

(** X11: the description takes at most 100 characters of the baseline
    Twitter post of [generate_mock_posts]: the post is never longer than the
    name, the date and location part and 130 characters more, and with a
    description of more than 100 characters it is exactly 113 characters
    longer than name and date and location part. *)
Theorem mock_twitter_length (name desc date location tone : str) (w : World) :
  swaps_templates tone = false →
  ∃ post,
    mock_post (lit "Twitter") name desc date location tone w = Some post
    ∧ (length post ≤ length name + length (twitter_when date location) + 130)%nat
    ∧ ((100 < length desc)%nat →
       length post = (length name + length (twitter_when date location) + 113)%nat).
Proof.
  intros Hkeep. rewrite mock_twitter_baseline by done. eexists. split; [reflexivity |].
  rewrite !length_app.
  change (length (lit "Join us for ")) with 12%nat.
  change (length (lit "! ")) with 2%nat.
  change (length (lit " #excited #event")) with 16%nat.
  destruct (Nat.ltb_spec 100 (length desc)) as [Hlong | Hshort].
  - rewrite length_app, length_take. change (length (lit "...")) with 3%nat. lia.
  - lia.
Qed.

Lemma mock_twitter_length_witness :
  ∃ post,
    mock_post (lit "Twitter") (lit "N") (replicate 101 97) [] [] (lit "Casual") offline
    = Some post
    ∧ length post = 114%nat.
Proof.
  destruct (mock_twitter_length (lit "N") (replicate 101 97) [] [] (lit "Casual") offline
              eq_refl) as (post & Hpost & _ & Hlen).
  exists post. split; [exact Hpost |]. apply Hlen. vm_compute. lia.
Defined.

(** ** One run of [main] *)

Lemma select_service_full (f : form) (w : World) :
  ∃ evs,
    select_service f w
    = (Ok (chosen_service f (detected_service (api_key f) w)),
       mkWorld (network w) (sent w ++ probe_part (api_key f)) (ui w ++ evs) (session_posts w)).
Proof.
  unfold select_service, detected_service, chosen_service, probe_part.
  pose proof (detect_api_service_cases (api_key f) w) as Hdetect.
  unfold reaches_probe in *.
  destruct (truthy (api_key f)); cbn [andb] in *.
  - destruct (negb (startswith (api_key f) (lit "sk-")) && negb (re_match_gemini (api_key f))).
    + unfold_monad. rewrite Hdetect. unfold value_of, requested. cbn [fst].
      cbn [network sent ui session_posts].
      destruct (selected_service f == lit "Auto-detect"); cbn [negb]; [eauto |].
      destruct (selected_service f == lit "Use Mock Generator (No API)"); [eauto |].
      cbn [network sent ui session_posts]; rewrite <- ?app_assoc; eauto.
    + destruct Hdetect as (service & Hdetect & _).
      unfold_monad. rewrite Hdetect. unfold value_of. cbn [fst].
      cbn [network sent ui session_posts]. rewrite app_nil_r.
      destruct (selected_service f == lit "Auto-detect"); cbn [negb]; [eauto |].
      destruct (selected_service f == lit "Use Mock Generator (No API)"); [eauto |].
      cbn [network sent ui session_posts]; rewrite <- ?app_assoc; eauto.
  - unfold_monad. cbn [network sent ui session_posts]. rewrite app_nil_r.
    destruct (selected_service f == lit "Auto-detect"); cbn [negb]; [eauto |].
    destruct (selected_service f == lit "Use Mock Generator (No API)"); [eauto |].
    cbn [network sent ui session_posts]; rewrite <- ?app_assoc; eauto.
Qed.

(** X12: the manual selection wins over the detection.  With [Use Mock
    Generator (No API)] the service is [Mock] and with any other selection
    than [Auto-detect] it is the selection, whatever the key and whatever the
    probe met; only under [Auto-detect] it is what [detect_api_service]
    answers, or [Not Detected] without a key. *)
Theorem manual_selection_wins (f : form) (w : World) :
  (selected_service f = lit "Use Mock Generator (No API)" →
   value_of (select_service f w) = Ok (lit "Mock"))
  ∧ (selected_service f ≠ lit "Auto-detect" →
     selected_service f ≠ lit "Use Mock Generator (No API)" →
     value_of (select_service f w) = Ok (selected_service f))
  ∧ (selected_service f = lit "Auto-detect" → api_key f = [] →
     value_of (select_service f w) = Ok (lit "Not Detected"))
  ∧ (selected_service f = lit "Auto-detect" → api_key f ≠ [] →
     value_of (select_service f w) = value_of (detect_api_service (api_key f) w)).
Proof.
  destruct (select_service_full f w) as [evs ->].
  unfold value_of, chosen_service, detected_service. cbn [fst].
  repeat split.
  - by intros ->.
  - intros Hauto%str_eq_false Hmock%str_eq_false. by rewrite Hauto, Hmock.
  - by intros -> ->.
  - intros -> Hkey%truthy_nonempty. rewrite Hkey, str_eq_refl.
    destruct (detect_api_service_run (api_key f) w) as (service & reqs & ->). done.
Qed.

(** X13: the requests of the sidebar do not depend on the manual selection:
    with a key that no pattern rule classifies, the probe carries the key to
    the OpenAI endpoint also when a service, or the mock generator, is
    selected by hand; with any other key the sidebar sends nothing. *)
Theorem sidebar_probes_whatever_is_selected (f : form) (w : World) :
  sent (world_of (select_service f w)) = sent w ++ probe_part (api_key f)
  ∧ session_posts (world_of (select_service f w)) = session_posts w
  ∧ (reaches_probe (api_key f) = true →
     sent (world_of (select_service f w)) = sent w ++ [probe_request (api_key f)]).
Proof.
  destruct (select_service_full f w) as [evs ->].
  unfold world_of, probe_part. cbn [snd sent session_posts].
  repeat split. by intros ->.
Qed.

Lemma sidebar_probes_whatever_is_selected_witness :
  sent (world_of (select_service
                    (tech_conf_with (lit "my-key") (lit "Use Mock Generator (No API)")) offline))
  = sent offline ++ [probe_request (lit "my-key")].
Proof.
  apply (sidebar_probes_whatever_is_selected
           (tech_conf_with (lit "my-key") (lit "Use Mock Generator (No API)")) offline).
  reflexivity.
Defined.

Lemma provider_of_selected (service : str) (p : provider) :
  provider_of service = Some p →
  service ≠ lit "Auto-detect" ∧ service ≠ lit "Use Mock Generator (No API)".
Proof.
  unfold provider_of.
  destruct (service == lit "OpenAI") eqn:H1;
    [apply str_eq_true in H1 as ->; intros _; split; discriminate |].
  destruct (service == lit "Google/Gemini") eqn:H2;
    [apply str_eq_true in H2 as ->; intros _; split; discriminate |].
  destruct (service == lit "Anthropic/Claude") eqn:H3;
    [apply str_eq_true in H3 as ->; intros _; split; discriminate |].
  discriminate.
Qed.

(** A run of [generate], with all it leaves in the world. *)
Lemma generate_run_full (service : str) (f : form) (w : World) :
  ∃ evs,
    generate service f w
    = (Ok (generation_results service f w),
       mkWorld (network w) (sent w ++ generation_requests service f) (ui w ++ evs)
         (session_posts w)).
Proof.
  unfold generate, generation_results, generation_requests, provider_of.
  destruct (service == lit "OpenAI").
  { pose proof (client_run_full OpenAI (api_key f) (event_name f) (event_desc f)
                  (event_date f) (event_location f) (tone f) w) as Hrun.
    cbv zeta in Hrun. cbn [client] in Hrun. rewrite Hrun. eauto. }
  destruct (service == lit "Google/Gemini").
  { unfold mbind, M_bind, emit.
    pose proof (client_run_full Gemini (api_key f) (event_name f) (event_desc f)
                  (event_date f) (event_location f) (tone f)
                  (mkWorld (network w) (sent w)
                     (ui w ++ [StInfo (lit "Using Gemini API. If you encounter errors, verify your API key and check that you have access to the Gemini Pro model.")])
                     (session_posts w))) as Hrun.
    cbv zeta in Hrun. cbn [client] in Hrun. rewrite Hrun.
    cbn [network sent ui session_posts]. rewrite <- app_assoc. eauto. }
  destruct (service == lit "Anthropic/Claude").
  { pose proof (client_run_full Anthropic (api_key f) (event_name f) (event_desc f)
                  (event_date f) (event_location f) (tone f) w) as Hrun.
    cbv zeta in Hrun. cbn [client] in Hrun. rewrite Hrun. eauto. }
  rewrite generate_mock_posts_run, app_nil_r. eauto.
Qed.

(** The Generate handler when name and description are filled in. *)
Lemma on_generate_valid (service : str) (f : form) (w : World) :
  generate_button f = true → fields_given f = true →
  ∃ evs,
    on_generate service f w
    = (Ok tt,
       mkWorld (network w) (sent w ++ generation_requests service f)
         (ui w ++ evs ++ [success_toast]) (Some (generation_results service f w))).
Proof.
  unfold fields_given. intros Hbutton [Hname Hdesc]%andb_prop.
  unfold on_generate. rewrite Hbutton, Hname, Hdesc. cbn [negb orb].
  destruct (generate_run_full service f w) as [evs Hrun].
  unfold mbind, M_bind. rewrite Hrun. unfold set_posts, emit, success_toast.
  cbn [network sent ui session_posts]. exists evs. by rewrite <- app_assoc.
Qed.

(** A whole run of [main]: it returns, and this is the world it leaves. *)
Lemma main_run (f : form) (w : World) :
  let service := chosen_service f (detected_service (api_key f) w) in
  let generates := generate_button f && fields_given f in
  ∃ evs,
    main f w
    = (Ok tt,
       mkWorld (network w)
         (sent w ++ probe_part (api_key f)
            ++ (if generates then generation_requests service f else []))
         (ui w ++ evs)
         (if generates then Some (generation_results service f (after_sidebar f w))
          else Some (default empty_posts (session_posts w)))).
Proof.
  cbv zeta. unfold main.
  destruct (select_service_full f w) as [evs1 Hsel].
  unfold mbind at 1. unfold M_bind at 1. rewrite Hsel.
  set (service := chosen_service f (detected_service (api_key f) w)).
  unfold mbind, M_bind.
  assert (Hinit : ∀ w1 : World,
            init_posts w1
            = (Ok tt, mkWorld (network w1) (sent w1) (ui w1)
                        (Some (default empty_posts (session_posts w1))))).
  { intros w1. unfold init_posts. destruct w1 as [n s u [p |]]; reflexivity. }
  rewrite Hinit. cbn [network sent ui session_posts].
  destruct (generate_button f) eqn:Hbutton; cbn [andb].
  - destruct (fields_given f) eqn:Hfields.
    + set (w2 := mkWorld _ _ _ _).
      destruct (on_generate_valid service f w2 Hbutton Hfields) as [evs2 ->].
      subst w2. cbn [network sent ui session_posts].
      exists (evs1 ++ evs2 ++ [success_toast]).
      rewrite <- !app_assoc. reflexivity.
    + assert (Hempty : event_name f = [] ∨ event_desc f = []).
      { unfold fields_given in Hfields.
        apply andb_false_iff in Hfields as [H%truthy_empty | H%truthy_empty]; auto. }
      rewrite (on_generate_blocked service f _ Hbutton Hempty).
      unfold shown. cbn [network sent ui session_posts].
      exists (evs1 ++ [required_fields_error]).
      by rewrite app_nil_r, <- app_assoc.
  - unfold on_generate. rewrite Hbutton. unfold mret, M_ret.
    exists evs1. by rewrite app_nil_r.
Qed.

(** X14: a generation with name and description filled in replaces the
    stored posts as a whole: whatever the session held before, it holds the
    new mapping with its three keys afterwards, nothing of the old posts is
    kept, and the success toast is the last message, also when the entries
    are error strings. *)
Theorem generation_replaces_posts (service : str) (f : form) (w : World) :
  generate_button f = true → event_name f ≠ [] → event_desc f ≠ [] →
  ∃ results w',
    on_generate service f w = (Ok tt, w')
    ∧ session_posts w' = Some results
    ∧ dom results = platform_keys
    ∧ last (ui w') = Some success_toast
    ∧ (∀ prior,
         session_posts
           (world_of (on_generate service f (mkWorld (network w) (sent w) (ui w) prior)))
         = Some results).
Proof.
  intros Hbutton Hname%truthy_nonempty Hdesc%truthy_nonempty.
  assert (Hfields : fields_given f = true) by (unfold fields_given; by rewrite Hname, Hdesc).
  destruct (on_generate_valid service f w Hbutton Hfields) as [evs Hrun].
  eexists _, _. split; [exact Hrun |]. cbn [session_posts ui].
  split; [reflexivity |]. split; [apply generation_results_dom |].
  split; [by rewrite !app_assoc, last_snoc |].
  intros prior.
  destruct (on_generate_valid service f (mkWorld (network w) (sent w) (ui w) prior)
              Hbutton Hfields) as [evs' ->].
  unfold world_of. cbn [snd session_posts]. reflexivity.
Qed.

Lemma generation_replaces_posts_witness :
  ∃ results w',
    on_generate (lit "OpenAI") tech_conf_form offline = (Ok tt, w')
    ∧ session_posts w' = Some results
    ∧ dom results = platform_keys
    ∧ last (ui w') = Some success_toast.
Proof.
  destruct (generation_replaces_posts (lit "OpenAI") tech_conf_form offline)
    as (results & w' & Hrun & Hposts & Hdom & Htoast & _);
    [reflexivity | discriminate | discriminate |].
  by exists results, w'.
Defined.

Lemma empty_posts_dom : dom empty_posts = platform_keys.
Proof.
  unfold empty_posts, platform_keys, platforms.
  rewrite !dom_insert_L, dom_empty_L. cbn [list_to_set foldr]. set_solver.
Qed.

(** X15: [main] never raises, and it keeps the stored posts keyed by the
    three platforms: from a session that holds no posts yet, or posts with
    exactly the keys LinkedIn, Twitter and WhatsApp, every run ends with posts
    stored under exactly these keys, whatever the form holds and whatever the
    network does. *)
Theorem main_keeps_posts_keyed (f : form) (w : World) :
  well_keyed w →
  value_of (main f w) = Ok tt
  ∧ (∃ p, session_posts (world_of (main f w)) = Some p ∧ dom p = platform_keys)
  ∧ well_keyed (world_of (main f w)).
Proof.
  intros Hkeyed. destruct (main_run f w) as [evs Hmain]. cbv zeta in Hmain.
  rewrite Hmain. unfold value_of, world_of, well_keyed. cbn [fst snd session_posts].
  assert (Hdom : ∃ p,
            (if generate_button f && fields_given f
             then Some (generation_results
                          (chosen_service f (detected_service (api_key f) w)) f
                          (after_sidebar f w))
             else Some (default empty_posts (session_posts w))) = Some p
            ∧ dom p = platform_keys).
  { destruct (generate_button f && fields_given f).
    - eexists. split; [reflexivity | apply generation_results_dom].
    - eexists. split; [reflexivity |].
      destruct (session_posts w) as [p |] eqn:Hp; cbn [default];
        [by apply Hkeyed | apply empty_posts_dom]. }
  split; [reflexivity |]. split; [exact Hdom |].
  destruct Hdom as (p & -> & Hdom). by intros p' [= <-].
Qed.

Lemma main_keeps_posts_keyed_witness :
  value_of (main tech_conf_form first_refused) = Ok tt
  ∧ ∃ p, session_posts (world_of (main tech_conf_form first_refused)) = Some p
         ∧ dom p = platform_keys.
Proof.
  destruct (main_keeps_posts_keyed tech_conf_form first_refused) as (Hval & Hposts & _);
    [intros p; discriminate |].
  split; [exact Hval | exact Hposts].
Defined.

Lemma chosen_without_provider (f : form) (detected : str) :
  provider_of (selected_service f) = None → provider_of detected = None →
  provider_of (chosen_service f detected) = None.
Proof.
  intros Hsel Hdet. unfold chosen_service.
  destruct (selected_service f == lit "Auto-detect"); [exact Hdet |].
  destruct (selected_service f == lit "Use Mock Generator (No API)"); [reflexivity | exact Hsel].
Qed.

(** X16: without a key and without a provider selected by hand, a run of
    [main] sends no request at all, and a generation it makes stores the mock
    posts. *)
Theorem main_offline_without_key (f : form) (w : World) :
  api_key f = [] → provider_of (selected_service f) = None →
  sent (world_of (main f w)) = sent w
  ∧ (generate_button f && fields_given f = true →
     session_posts (world_of (main f w))
     = Some (posts_dict (apply_tone (tone f) (event_name f) (event_desc f) (event_date f)
                           (event_location f)
                           (baseline_posts (event_name f) (event_desc f) (event_date f)
                              (event_location f))))).
Proof.
  intros Hkey Hsel. destruct (main_run f w) as [evs Hmain]. cbv zeta in Hmain.
  rewrite Hmain. unfold world_of. cbn [snd sent session_posts].
  assert (Hnone : provider_of (chosen_service f (detected_service (api_key f) w)) = None).
  { apply chosen_without_provider; [exact Hsel |].
    unfold detected_service. by rewrite Hkey. }
  unfold generation_requests, generation_results, probe_part, reaches_probe.
  rewrite Hnone, Hkey. cbn [truthy andb].
  split; [by destruct (generate_button f && fields_given f); rewrite !app_nil_r |].
  by intros ->.
Qed.

Lemma main_offline_without_key_witness :
  sent (world_of (main (tech_conf_with [] (lit "Auto-detect")) first_refused))
  = sent first_refused.
Proof.
  apply (main_offline_without_key (tech_conf_with [] (lit "Auto-detect")) first_refused);
    reflexivity.
Defined.

(** X17: under [Auto-detect], a key that no pattern rule classifies decides
    the generator by the probe.  When the probe fails, the run sends the probe
    alone and stores the mock posts; when the probe is answered with status
    200, the OpenAI client runs with the key and its three requests follow the
    probe. *)
Theorem unclassified_key_is_settled_by_probe (f : form) (w : World) :
  reaches_probe (api_key f) = true →
  selected_service f = lit "Auto-detect" →
  generate_button f = true → fields_given f = true →
  let event_info :=
    format_event_info (event_name f) (event_desc f) (event_date f) (event_location f) in
  let probe := network w (length (sent w)) (probe_request (api_key f)) in
  (probe_succeeded probe = false →
     sent (world_of (main f w)) = sent w ++ [probe_request (api_key f)]
     ∧ session_posts (world_of (main f w))
       = Some (posts_dict (apply_tone (tone f) (event_name f) (event_desc f) (event_date f)
                             (event_location f)
                             (baseline_posts (event_name f) (event_desc f) (event_date f)
                                (event_location f)))))
  ∧ (probe_succeeded probe = true →
     sent (world_of (main f w))
     = sent w ++ probe_request (api_key f)
                 :: map (request_of OpenAI (api_key f) event_info (tone f)) platforms).
Proof.
  intros Hprobe Hauto Hbutton Hfields. cbv zeta.
  destruct (main_run f w) as [evs Hmain]. cbv zeta in Hmain.
  rewrite Hmain. unfold world_of. cbn [snd sent session_posts].
  rewrite Hbutton, Hfields. cbn [andb].
  assert (Hservice : chosen_service f (detected_service (api_key f) w)
                     = if probe_succeeded (network w (length (sent w))
                                             (probe_request (api_key f)))
                       then lit "OpenAI" else lit "Unknown API service").
  { unfold chosen_service, detected_service. rewrite Hauto, str_eq_refl.
    pose proof (detect_api_service_cases (api_key f) w) as Hcases.
    rewrite Hprobe in Hcases. rewrite Hcases.
    unfold reaches_probe in Hprobe.
    apply andb_prop in Hprobe as [[-> _]%andb_prop _]. reflexivity. }
  rewrite Hservice. unfold probe_part. rewrite Hprobe.
  split; intros ->.
  - split; [by rewrite app_nil_r | reflexivity].
  - reflexivity.
Qed.

Lemma unclassified_key_is_settled_by_probe_witness :
  sent (world_of (main (tech_conf_with (lit "my-key") (lit "Auto-detect")) offline))
  = sent offline ++ [probe_request (lit "my-key")].
Proof.
  apply (unclassified_key_is_settled_by_probe
           (tech_conf_with (lit "my-key") (lit "Auto-detect")) offline);
    reflexivity.
Defined.

(** X18: a provider selected by hand is used whatever the key is: the run
    sends the three requests of that client with the key as it stands, an
    empty one too, after the probe of the sidebar if the key calls for one,
    and stores what that client returns. *)
Theorem manual_provider_is_called (f : form) (w : World) (p : provider) :
  provider_of (selected_service f) = Some p →
  generate_button f = true → fields_given f = true →
  let event_info :=
    format_event_info (event_name f) (event_desc f) (event_date f) (event_location f) in
  sent (world_of (main f w))
  = sent w ++ probe_part (api_key f)
           ++ map (request_of p (api_key f) event_info (tone f)) platforms
  ∧ session_posts (world_of (main f w))
    = Some (client_results p (api_key f) event_info (tone f) (after_sidebar f w)).
Proof.
  intros Hp Hbutton Hfields. cbv zeta.
  destruct (main_run f w) as [evs Hmain]. cbv zeta in Hmain.
  rewrite Hmain. unfold world_of. cbn [snd sent session_posts].
  rewrite Hbutton, Hfields. cbn [andb].
  assert (Hservice : chosen_service f (detected_service (api_key f) w) = selected_service f).
  { destruct (provider_of_selected _ _ Hp) as [Hauto%str_eq_false Hmock%str_eq_false].
    unfold chosen_service. by rewrite Hauto, Hmock. }
  rewrite Hservice. unfold generation_requests, generation_results. rewrite Hp.
  split; reflexivity.
Qed.

Lemma manual_provider_is_called_witness :
  sent (world_of (main (tech_conf_with [] (lit "OpenAI")) offline))
  = map (request_of OpenAI []
           (format_event_info (lit "Tech Conf") (lit "A great event") [] [])
           (lit "Professional")) platforms.
Proof.
  apply (manual_provider_is_called (tech_conf_with [] (lit "OpenAI")) offline OpenAI);
    reflexivity.
Defined.

(** ** The description in the swapped Twitter posts *)

(** X19: under the tones Sarcastic and Enthusiastic the Twitter post of
    [generate_mock_posts] leaves the description out: two events that differ
    in their descriptions only get the same Twitter post, while their
    LinkedIn posts differ. *)
Theorem swapped_twitter_drops_description
    (name desc desc' date location tone : str) (w : World) :
  swaps_templates tone = true →
  mock_post (lit "Twitter") name desc date location tone w
    = mock_post (lit "Twitter") name desc' date location tone w
  ∧ (desc ≠ desc' →
     mock_post (lit "LinkedIn") name desc date location tone w
       ≠ mock_post (lit "LinkedIn") name desc' date location tone w).
Proof.
  unfold swaps_templates. intros Hswap.
  rewrite !mock_post_twitter, !mock_post_linkedin. unfold apply_tone.
  destruct (tone == lit "Sarcastic");
    [| destruct (tone == lit "Enthusiastic"); [| discriminate]];
    cbn [twitter_post linkedin_post]; (split; [reflexivity |]);
    intros Hne H; apply Hne; apply (inj Some) in H;
    destruct (truthy date && truthy location);
    rewrite <- !app_assoc in H;
    repeat apply app_inv_head in H;
    by apply app_inv_tail in H.
Qed.

Lemma swapped_twitter_drops_description_witness :
  mock_post (lit "Twitter") (lit "Tech Conf") (lit "A great event") [] [] (lit "Sarcastic") offline
  = mock_post (lit "Twitter") (lit "Tech Conf") (lit "Another text") [] [] (lit "Sarcastic") offline.
Proof.
  apply (swapped_twitter_drops_description (lit "Tech Conf") (lit "A great event")
           (lit "Another text") [] [] (lit "Sarcastic") offline).
  reflexivity.
Defined.
